(** * DataVisualizations: a shallow embedding of [DataVisualizations.py]

    The class wraps a pandas data frame and an output directory and offers
    four plotting methods.  Every method is modelled as a transformer of the
    program state (the object, the file system, matplotlib's open figures)
    which either returns or raises; a raised error keeps the side effects
    performed before it.

    What is and is not modelled:
    - numbers are exact rationals [Q]: Python floats without rounding error,
      and no [nan] cells; [int(...)] truncates toward zero;
    - a column holds numbers or strings; a data frame is its row labels and
      its named columns;
    - a saved image is the figure it shows (its artists, title, labels and
      limits); how matplotlib renders it is not modelled;
    - pyplot's implicit "current figure" is the head of the list of open
      figures; the pandas plotting calls are modelled by what they do to
      that list and by the errors they raise before drawing;
    - the file system is a set of directories and a finite map of files;
      writing a file is assumed to succeed. *)

From Stdlib Require Import ZArith QArith Qround Lia Lqa List Sorting.Permutation
  Sorting.Sorted.
From stdpp Require Import gmap strings list fin_maps.
Import ListNotations.

#[local] Open Scope Z_scope.
#[local] Open Scope Q_scope.
#[local] Open Scope list_scope.

(** ** Numbers *)

Module Py.

(** [int(q)]: truncation toward zero. *)
Definition int (q : Q) : Z := Z.quot (Qnum q) (Zpos (Qden q)).

(** [round(q)]: to the nearest integer, ties to the even one. *)
Definition round (q : Q) : Z :=
  let f := Qfloor q in
  let r := q - inject_Z f in
  match Qcompare r (1 # 2) with
  | Lt => f
  | Gt => (f + 1)%Z
  | Eq => if Z.even f then f else (f + 1)%Z
  end.

(** [range(start, stop, step)] as the list of its elements; [step] is
    never 0 where the program calls it. *)
Definition range_len (start stop step : Z) : nat :=
  if (0 <? step)%Z then Z.to_nat ((stop - start + step - 1) / step)
  else if (step <? 0)%Z then Z.to_nat ((start - stop - step - 1) / (- step))
  else O.

Definition range (start stop step : Z) : list Z :=
  List.map (fun i => (start + Z.of_nat i * step)%Z)
           (List.seq 0 (range_len start stop step)).

End Py.

(** ** numpy reductions on a column of numbers *)

Module Np.

Definition qmax (a b : Q) : Q := if Qle_bool a b then b else a.
Definition qmin (a b : Q) : Q := if Qle_bool a b then a else b.

(** [np.max(x)] and [np.min(x)] of a pandas series; [None] is [nan], which
    is what pandas returns for an empty series. *)
Definition max (x : list Q) : option Q :=
  match x with
  | [] => None
  | a :: t => Some (fold_left qmax t a)
  end.

Definition min (x : list Q) : option Q :=
  match x with
  | [] => None
  | a :: t => Some (fold_left qmin t a)
  end.

(** Insertion sort, used by [percentile]. *)
Fixpoint insert_sorted (a : Q) (l : list Q) : list Q :=
  match l with
  | [] => [a]
  | b :: t => if Qle_bool a b then a :: l else b :: insert_sorted a t
  end.

Definition sort (l : list Q) : list Q := fold_right insert_sorted [] l.

(** [np.percentile(x, q)] with the default linear interpolation:
    the virtual index [q/100 * (n-1)] in the sorted data, interpolated
    between its two neighbours.  [None] stands for the [ValueError] raised
    when [q] is outside [0, 100].  On an empty [x] numpy answers [nan]; the
    value given here is immaterial, since no row passes the comparison with
    it and the limit computed from those rows is [nan] either way. *)
Definition percentile (x : list Q) (q : Q) : option Q :=
  if Qle_bool 0 q && Qle_bool q 100 then
    let s := sort x in
    let idx := q / 100 * inject_Z (Z.of_nat (length x) - 1) in
    let lo := Z.to_nat (Qfloor idx) in
    let frac := idx - inject_Z (Qfloor idx) in
    let a := nth lo s 0 in
    let b := nth (S lo) s a in
    Some (a + frac * (b - a))
  else None.

End Np.

(** ** The data frame *)

(** A cell of a column: a number or a string.  Numbers used as group keys
    are kept in lowest terms, so that equal numbers are equal keys. *)
Inductive Value :=
| VNum (q : Q)
| VStr (s : string).

Inductive Column :=
| NumCol (v : list Q)
| StrCol (v : list string).

#[global] Instance Q_eq_dec : EqDecision Q.
Proof. solve_decision. Defined.

#[global] Instance Value_eq_dec : EqDecision Value.
Proof. solve_decision. Defined.

Definition values (c : Column) : list Value :=
  match c with
  | NumCol v => List.map (fun q => VNum (Qred q)) v
  | StrCol v => List.map VStr v
  end.


(** The order pandas sorts group keys in. *)
Definition value_leb (a b : Value) : bool :=
  match a, b with
  | VNum x, VNum y => Qle_bool x y
  | VStr x, VStr y => String.leb x y
  | VNum _, VStr _ => true
  | VStr _, VNum _ => false
  end.

(** A data frame: the row labels and the named columns. *)
Record DataFrame := {
  index : list nat;
  columns : gmap string Column
}.

Definition take_rows (locs : list nat) (c : Column) : Column :=
  match c with
  | NumCol v => NumCol (omap (fun i => v !! i) locs)
  | StrCol v => StrCol (omap (fun i => v !! i) locs)
  end.

(** ** Errors and results *)

Inductive Error :=
| KeyError
| TypeError
| ValueError
| OverflowError
| FileNotFoundError.

Inductive Result (A : Type) :=
| Ok (a : A)
| Raise (e : Error).
Arguments Ok {A} a.
Arguments Raise {A} e.

(** ** Figures, the file system and the program state *)

Inductive Artist :=
| Hist (x : list Q) (bins : list Z)
| Scatter (x y : Column)
| SeriesPlot (kind : string) (data : list (Value * nat))
| BoxPlotBy (groups : list (Value * list Q))
| FramePlot (kind : string) (data : list (Value * Q)).

Record Figure := {
  artists : list Artist;
  title : option string;
  xlabel : option string;
  ylabel : option string;
  xlim : option (Q * Q);
  ylim : option (Q * Q)
}.

Definition empty_figure : Figure :=
  {| artists := []; title := None; xlabel := None; ylabel := None;
     xlim := None; ylim := None |}.

(** Directories and image files; a saved image is the figure it shows. *)
Record FS := {
  dirs : gset string;
  files : gmap string Figure
}.

(** The object's two fields. *)
Record Visualizer := {
  df : DataFrame;
  output_directory : string
}.

(** The state a method runs in: the object, the file system, and
    matplotlib's open figures, the current one first. *)
Record State := {
  self : Visualizer;
  fs : FS;
  figs : list Figure
}.

(** Computations that read and change the state and may raise.  An error
    keeps the state reached when it was raised. *)
Definition M (A : Type) : Type := State -> Result A * State.

#[global] Instance M_ret : MRet M := fun A a s => (Ok a, s).
#[global] Instance M_bind : MBind M := fun A B f m s =>
  match m s with
  | (Ok a, s') => f a s'
  | (Raise e, s') => (Raise e, s')
  end.

Definition raise {A} (e : Error) : M A := fun s => (Raise e, s).
Definition get_self : M Visualizer := fun s => (Ok (self s), s).

(** [os.path.sep], on a POSIX system. *)
Definition os_path_sep : string := "/".

(** ** pandas: indexing, counting and grouping *)

Module Pd.

(** [df[column]] *)
Definition getitem (d : DataFrame) (column : string) : M Column :=
  match columns d !! column with
  | Some c => mret c
  | None => raise KeyError
  end.

(** Insert-or-update in an association list kept in order of first
    appearance: how a hash-based pass over the rows accumulates. *)
Fixpoint upsert {V} (upd : option V -> V) (k : Value)
    (acc : list (Value * V)) : list (Value * V) :=
  match acc with
  | [] => [(k, upd None)]
  | (k', v) :: t =>
      if decide (k = k') then (k', upd (Some v)) :: t
      else (k', v) :: upsert upd k t
  end.

(** Stable insertion sort by a comparison on entries. *)
Fixpoint insert_by {A} (leb : A -> A -> bool) (a : A) (l : list A) : list A :=
  match l with
  | [] => [a]
  | b :: t => if leb a b then a :: l else b :: insert_by leb a t
  end.

Definition sort_by {A} (leb : A -> A -> bool) (l : list A) : list A :=
  fold_right (insert_by leb) [] l.

Definition tally (l : list Value) : list (Value * nat) :=
  fold_left (fun acc k => upsert (fun o => S (default O o)) k acc) l [].

(** [series.value_counts()]: the number of rows per distinct value, the
    most frequent first (equal counts keep their order of appearance). *)
Definition value_counts (l : list Value) : list (Value * nat) :=
  sort_by (fun a b => Nat.leb (snd b) (snd a)) (tally l).

Definition by_key {V} (a b : Value * V) : bool := value_leb (fst a) (fst b).

(** [df[[by, col]].groupby([by]).sum()]: one row per distinct key, in key
    order, holding the sum of [col] over the rows of that key. *)
Definition groupby_sum (keys : list Value) (vals : list Q) : list (Value * Q) :=
  sort_by by_key
    (fold_left (fun acc kv =>
                  upsert (fun o => match o with
                                   | None => snd kv
                                   | Some s => s + snd kv
                                   end) (fst kv) acc)
               (combine keys vals) []).

(** The groups [df.boxplot(column=col, by=by)] draws one box for. *)
Definition groupby_values (keys : list Value) (vals : list Q)
    : list (Value * list Q) :=
  sort_by by_key
    (fold_left (fun acc kv =>
                  upsert (fun o => default [] o ++ [snd kv]) (fst kv) acc)
               (combine keys vals) []).

(** The plot kinds the [plot] accessor knows. *)
Definition all_kinds : list string :=
  ["line"; "bar"; "barh"; "kde"; "density"; "area"; "hist"; "box"; "pie";
   "scatter"; "hexbin"]%string.

Definition dataframe_kinds : list string := ["scatter"; "hexbin"]%string.

End Pd.

(** ** matplotlib.pyplot: operations on the current figure *)

Module Plt.

Definition set_figs (s : State) (l : list Figure) : State :=
  {| self := self s; fs := fs s; figs := l |}.

Definition set_files (s : State) (m : gmap string Figure) : State :=
  {| self := self s;
     fs := {| dirs := dirs (fs s); files := m |};
     figs := figs s |}.

(** Apply [f] to the current figure; pyplot opens one when none is. *)
Definition on_current (f : Figure -> Figure) : M unit := fun s =>
  match figs s with
  | [] => (Ok tt, set_figs s [f empty_figure])
  | g :: t => (Ok tt, set_figs s (f g :: t))
  end.

(** [plt.figure()]: a new figure, which becomes the current one. *)
Definition new_figure (g : Figure) : M unit := fun s =>
  (Ok tt, set_figs s (g :: figs s)).

Definition add_artist (a : Artist) (g : Figure) : Figure :=
  {| artists := artists g ++ [a]; title := title g; xlabel := xlabel g;
     ylabel := ylabel g; xlim := xlim g; ylim := ylim g |}.

Definition with_title (t : string) (g : Figure) : Figure :=
  {| artists := artists g; title := Some t; xlabel := xlabel g;
     ylabel := ylabel g; xlim := xlim g; ylim := ylim g |}.

Definition with_xlabel (t : string) (g : Figure) : Figure :=
  {| artists := artists g; title := title g; xlabel := Some t;
     ylabel := ylabel g; xlim := xlim g; ylim := ylim g |}.

Definition with_ylabel (t : string) (g : Figure) : Figure :=
  {| artists := artists g; title := title g; xlabel := xlabel g;
     ylabel := Some t; xlim := xlim g; ylim := ylim g |}.

Definition with_xlim (l : Q * Q) (g : Figure) : Figure :=
  {| artists := artists g; title := title g; xlabel := xlabel g;
     ylabel := ylabel g; xlim := Some l; ylim := ylim g |}.

Definition with_ylim (l : Q * Q) (g : Figure) : Figure :=
  {| artists := artists g; title := title g; xlabel := xlabel g;
     ylabel := ylabel g; xlim := xlim g; ylim := Some l |}.

(** Bin edges must not decrease. *)
Fixpoint decreases (l : list Z) : bool :=
  match l with
  | a :: (b :: _) as t => (b <? a)%Z || decreases t
  | _ => false
  end.

Definition hist (x : list Q) (bins : list Z) : M unit :=
  if decreases bins then raise ValueError
  else on_current (add_artist (Hist x bins)).

Definition scatter (x y : Column) : M unit :=
  on_current (add_artist (Scatter x y)).

(** [plt.xlim(left, right)]: [nan] limits are refused. *)
Definition set_xlim (l r : option Q) : M unit :=
  match l, r with
  | Some a, Some b => on_current (with_xlim (a, b))
  | _, _ => raise ValueError
  end.

Definition set_ylim (l r : option Q) : M unit :=
  match l, r with
  | Some a, Some b => on_current (with_ylim (a, b))
  | _, _ => raise ValueError
  end.

Definition set_title (t : string) : M unit := on_current (with_title t).
Definition set_xlabel (t : string) : M unit := on_current (with_xlabel t).
Definition set_ylabel (t : string) : M unit := on_current (with_ylabel t).

(** [savefig(path)]: write the current figure, replacing what is there. *)
Definition savefig (path : string) : M unit := fun s =>
  let g := match figs s with [] => empty_figure | g :: _ => g end in
  let s1 := match figs s with [] => set_figs s [g] | _ => s end in
  (Ok tt, set_files s1 (<[path := g]> (files (fs s1)))).

(** [plt.cla(); plt.clf()]: wipe the current figure. *)
Definition clear : M unit := on_current (fun _ => empty_figure).

(** [plt.close()]: close the current figure, if any. *)
Definition close : M unit := fun s => (Ok tt, set_figs s (tail (figs s))).

End Plt.

(** ** The class [DataVisualizations] *)

(** [int((np.max(x) - np.min(x)) / nbins)], replaced by 1 when it is 0.
    An empty column has [nan] extremes, and a zero [nbins] divides to
    [inf] or [nan]: [int] raises on each. *)
Definition bin_width (x : list Q) (nbins : Z) : Result Z :=
  match Np.max x, Np.min x with
  | Some mx, Some mn =>
      if (nbins =? 0)%Z then
        if Qeq_bool (mx - mn) 0 then Raise ValueError else Raise OverflowError
      else
        let w := Py.int ((mx - mn) / inject_Z nbins) in
        Ok (if (w =? 0)%Z then 1%Z else w)
  | _, _ => Raise ValueError
  end.

(** [range(int(np.min(x) - 1), int(np.max(x) + bin_width), bin_width)] *)
Definition bins (x : list Q) (w : Z) : list Z :=
  match Np.max x, Np.min x with
  | Some mx, Some mn => Py.range (Py.int (mn - 1)) (Py.int (mx + inject_Z w)) w
  | _, _ => []
  end.

(** [np.min(x[x > np.percentile(x, outlier_cutoff*100)])] *)
Definition left (x : list Q) (outlier_cutoff : Q) : Result (option Q) :=
  match Np.percentile x (outlier_cutoff * 100) with
  | Some p => Ok (Np.min (List.filter (fun v => negb (Qle_bool v p)) x))
  | None => Raise ValueError
  end.

(** [np.max(x[x < np.percentile(x, (1-outlier_cutoff)*100)])] *)
Definition right (x : list Q) (outlier_cutoff : Q) : Result (option Q) :=
  match Np.percentile x ((1 - outlier_cutoff) * 100) with
  | Some p => Ok (Np.max (List.filter (fun v => negb (Qle_bool p v)) x))
  | None => Raise ValueError
  end.

Definition lift {A} (r : Result A) : M A := fun s => (r, s).

(** Arithmetic on a column needs numbers. *)
Definition numeric (c : Column) : M (list Q) :=
  match c with
  | NumCol v => mret v
  | StrCol _ => raise TypeError
  end.

Definition visualize_numeric (column : string) (nbins : Z)
    (outlier_cutoff : Q) : M unit :=
  me ← get_self;
  c ← Pd.getitem (df me) column;
  x ← numeric c;
  w ← lift (bin_width x nbins);
  Plt.hist x (bins x w);;
  (if Qle_bool outlier_cutoff 0 then mret tt
   else
     l ← lift (left x outlier_cutoff);
     r ← lift (right x outlier_cutoff);
     Plt.set_xlim l r);;
  Plt.set_title ("Distribution of data across " +:+ column);;
  Plt.set_xlabel column;;
  Plt.set_ylabel "Frequency";;
  Plt.savefig (output_directory me +:+ os_path_sep +:+ column +:+ ".png");;
  Plt.close.

(** [series.plot(kind=kind, title=title)]: the kind is checked first; a
    series is drawn on the current axes when a figure is open, on a new
    figure otherwise. *)
Definition series_plot (kind title : string) (data : list (Value * nat))
    : M unit :=
  if negb (bool_decide (kind ∈ Pd.all_kinds)) then raise ValueError
  else if bool_decide (kind ∈ Pd.dataframe_kinds) then raise ValueError
  else Plt.on_current (fun g => Plt.with_title title
                                  (Plt.add_artist (SeriesPlot kind data) g)).

Definition visualize_categorical (column kind : string) : M unit :=
  me ← get_self;
  c ← Pd.getitem (df me) column;
  series_plot kind ("Distribution of data across " +:+ column)
              (Pd.value_counts (values c));;
  Plt.set_xlabel column;;
  Plt.set_ylabel "Frequency";;
  Plt.savefig (output_directory me +:+ os_path_sep +:+ kind +:+ "_"
               +:+ column +:+ ".png");;
  Plt.clear;;
  Plt.close.

(** The percentile rule on one axis of the scatter plot. *)
Definition trim (c : Column) (outlier_cutoff : Q)
    : M (option Q * option Q) :=
  x ← numeric c;
  l ← lift (left x outlier_cutoff);
  r ← lift (right x outlier_cutoff);
  mret (l, r).

Definition visualize_ynum_to_xnum (dependent_variable independent_variable
    : string) (outlier_cutoff : Q) : M unit :=
  me ← get_self;
  y ← Pd.getitem (df me) dependent_variable;
  x ← Pd.getitem (df me) independent_variable;
  Plt.scatter x y;;
  (if Qle_bool outlier_cutoff 0 then mret tt
   else
     xl ← trim x outlier_cutoff;
     yl ← trim y outlier_cutoff;
     Plt.set_xlim (fst xl) (snd xl);;
     Plt.set_ylim (fst yl) (snd yl));;
  Plt.set_title ("Relationship between " +:+ dependent_variable +:+ " and "
                 +:+ independent_variable);;
  Plt.set_xlabel independent_variable;;
  Plt.set_ylabel dependent_variable;;
  Plt.savefig (output_directory me +:+ os_path_sep +:+ dependent_variable
               +:+ "_" +:+ independent_variable +:+ ".png");;
  Plt.close.

(** The two columns of [df[[by, col]]]; grouping a column by itself is
    left out of the model and reported as an error. *)
Definition select2 (d : DataFrame) (by_ col : string) : M (Column * Column) :=
  k ← Pd.getitem d by_;
  v ← Pd.getitem d col;
  if decide (by_ = col) then raise ValueError else mret (k, v).

(** [df.boxplot(column=col, by=by)]: a new figure with one box per group. *)
Definition boxplot (d : DataFrame) (col by_ : string) : M unit :=
  kv ← select2 d by_ col;
  v ← numeric (snd kv);
  Plt.new_figure (Plt.add_artist
                    (BoxPlotBy (Pd.groupby_values (values (fst kv)) v))
                    empty_figure).

(** [frame.plot(kind=kind)] of the grouped sums: the kind is checked, then
    that there is numeric data, then a new figure is drawn.  Without [x]
    and [y] the frame kinds and [pie] are refused. *)
Definition frame_plot (kind : string) (data : option (list (Value * Q)))
    : M unit :=
  if negb (bool_decide (kind ∈ Pd.all_kinds)) then raise ValueError
  else if bool_decide (kind ∈ Pd.dataframe_kinds) then raise ValueError
  else if bool_decide (kind = "pie"%string) then raise ValueError
  else match data with
       | None => raise TypeError
       | Some d =>
           Plt.new_figure (Plt.add_artist (FramePlot kind d) empty_figure)
       end.

Definition grouped_sums (kv : Column * Column) : option (list (Value * Q)) :=
  match snd kv with
  | NumCol v => Some (Pd.groupby_sum (values (fst kv)) v)
  | StrCol _ => None
  end.

Definition visualize_ynum_to_xcat (dependent_variable independent_variable
    kind : string) : M unit :=
  me ← get_self;
  (if bool_decide (kind = "box"%string)
   then boxplot (df me) dependent_variable independent_variable
   else
     kv ← select2 (df me) independent_variable dependent_variable;
     frame_plot kind (grouped_sums kv));;
  Plt.set_title ("Relationship between " +:+ dependent_variable +:+ " and "
                 +:+ independent_variable);;
  Plt.set_xlabel independent_variable;;
  Plt.set_ylabel dependent_variable;;
  Plt.savefig (output_directory me +:+ os_path_sep +:+ kind +:+ "_"
               +:+ dependent_variable +:+ "_" +:+ independent_variable
               +:+ ".png");;
  Plt.clear;;
  Plt.close.

(** ** Construction *)

Definition path_exists (f : FS) (p : string) : bool :=
  bool_decide (p ∈ dirs f) || bool_decide (is_Some (files f !! p)).

(** [os.makedirs(p)]; the empty path names no directory. *)
Definition makedirs (f : FS) (p : string) : Result FS :=
  if decide (p = ""%string) then Raise FileNotFoundError
  else Ok {| dirs := {[p]} ∪ dirs f; files := files f |}.

Section Sampling.

(** The random number generator behind [df.sample]: [choice rs n k] draws
    [k] of the positions [0 .. n-1] without replacement. *)
Variable RandomState : Type.
Variable choice : RandomState -> nat -> nat -> list nat.

(** [df.sample(frac=frac, random_state=rs)]: [round(frac * len(df))] rows
    at the drawn positions. *)
Definition sample (d : DataFrame) (frac : Q) (rs : RandomState)
    : Result DataFrame :=
  if negb (Qle_bool 0 frac) then Raise ValueError
  else if negb (Qle_bool frac 1) then Raise ValueError
  else
    let n := length (index d) in
    let k := Z.to_nat (Py.round (frac * inject_Z (Z.of_nat n))) in
    let locs := choice rs n k in
    Ok {| index := omap (fun i => index d !! i) locs;
          columns := take_rows locs <$> columns d |}.

(** [DataVisualizations.__init__] *)
Definition __init__ (d : DataFrame) (output_directory : string) (subsample : Q)
    (random_state : RandomState) (f : FS) (open_figs : list Figure)
    : Result State :=
  match (if negb (Qle_bool 100 subsample)
         then sample d (subsample / 100) random_state
         else Ok d) with
  | Raise e => Raise e
  | Ok d' =>
      match (if path_exists f output_directory then Ok f
             else makedirs f output_directory) with
      | Raise e => Raise e
      | Ok f' =>
          Ok {| self := {| df := d'; output_directory := output_directory |};
                fs := f'; figs := open_figs |}
      end
  end.

End Sampling.

(** ** Calls, and the vocabulary of the specification *)

(** One call of one of the four plotting methods. *)
Inductive Call :=
| Numeric (column : string) (nbins : Z) (outlier_cutoff : Q)
| Categorical (column kind : string)
| YnumToXnum (dependent_variable independent_variable : string)
             (outlier_cutoff : Q)
| YnumToXcat (dependent_variable independent_variable kind : string).

Definition run (c : Call) : M unit :=
  match c with
  | Numeric column nbins cut => visualize_numeric column nbins cut
  | Categorical column kind => visualize_categorical column kind
  | YnumToXnum dep ind cut => visualize_ynum_to_xnum dep ind cut
  | YnumToXcat dep ind kind => visualize_ynum_to_xcat dep ind kind
  end.

(** The documented file name of a call's picture:
    [{output_dir}/{column}.png], [{output_dir}/{kind}_{column}.png],
    [{output_dir}/{dependent}_{independent}.png] and
    [{output_dir}/{kind}_{dependent}_{independent}.png]. *)
Definition target (output_dir : string) (c : Call) : string :=
  match c with
  | Numeric column _ _ => output_dir +:+ "/" +:+ column +:+ ".png"
  | Categorical column kind =>
      output_dir +:+ "/" +:+ kind +:+ "_" +:+ column +:+ ".png"
  | YnumToXnum dep ind _ => output_dir +:+ "/" +:+ dep +:+ "_" +:+ ind +:+ ".png"
  | YnumToXcat dep ind kind =>
      output_dir +:+ "/" +:+ kind +:+ "_" +:+ dep +:+ "_" +:+ ind +:+ ".png"
  end.

(** The figure pyplot draws on: the current one, or a fresh one. *)
Definition current (s : State) : Figure := hd empty_figure (figs s).


(** The edges reach from below the minimum up to the maximum. *)
Definition spans (edges : list Z) (mn mx : Q) : Prop :=
  exists first last_,
    head edges = Some first /\ last edges = Some last_ /\
    inject_Z first < mn /\ mx <= inject_Z last_.


(** The edges of one column and bin count reach its maximum. *)
Definition reaches_max (x : list Q) (nbins : Z) : Prop :=
  forall w mn mx, bin_width x nbins = Ok w ->
    Np.min x = Some mn -> Np.max x = Some mx -> spans (bins x w) mn mx.

(** The values of the rows whose key is [k], in row order, and their sum. *)
Definition rows_where (k : Value) (keys : list Value) (vals : list Q) : list Q :=
  List.map snd (List.filter (fun kv => bool_decide (fst kv = k)) (combine keys vals)).

Definition qsum (l : list Q) : Q := fold_right Qplus 0 l.

Definition sum_where (k : Value) (keys : list Value) (vals : list Q) : Q :=
  qsum (rows_where k keys vals).


(** The kinds each method can draw. *)
Definition categorical_kinds : list string :=
  ["line"; "bar"; "barh"; "kde"; "density"; "area"; "hist"; "box"; "pie"]%string.

Definition xcat_kinds : list string :=
  ["line"; "bar"; "barh"; "kde"; "density"; "area"; "hist"; "box"]%string.


(** *** The pictures the methods save *)

Definition or_limits (lim old : option (Q * Q)) : option (Q * Q) :=
  match lim with Some l => Some l | None => old end.

(** The limits a cutoff puts on the values [x]: none for a cutoff that is
    not positive, else [left] and [right]. *)
Definition limits (x : list Q) (c : Q) (lim : option (Q * Q)) : Prop :=
  if Qle_bool c 0 then lim = None
  else exists l r, left x c = Ok (Some l) /\ right x c = Ok (Some r) /\
                   lim = Some (l, r).

Definition numeric_figure (column : string) (x : list Q) (edges : list Z)
    (lim : option (Q * Q)) (g : Figure) : Figure :=
  {| artists := artists g ++ [Hist x edges];
     title := Some ("Distribution of data across " +:+ column);
     xlabel := Some column;
     ylabel := Some "Frequency"%string;
     xlim := or_limits lim (xlim g);
     ylim := ylim g |}.

Definition scatter_figure (dep ind : string) (x y : Column)
    (xl yl : option (Q * Q)) (g : Figure) : Figure :=
  {| artists := artists g ++ [Scatter x y];
     title := Some ("Relationship between " +:+ dep +:+ " and " +:+ ind);
     xlabel := Some ind;
     ylabel := Some dep;
     xlim := or_limits xl (xlim g);
     ylim := or_limits yl (ylim g) |}.

Definition categorical_figure (column kind : string)
    (data : list (Value * nat)) (g : Figure) : Figure :=
  {| artists := artists g ++ [SeriesPlot kind data];
     title := Some ("Distribution of data across " +:+ column);
     xlabel := Some column;
     ylabel := Some "Frequency"%string;
     xlim := xlim g;
     ylim := ylim g |}.

Definition xcat_figure (dep ind : string) (a : Artist) : Figure :=
  {| artists := [a];
     title := Some ("Relationship between " +:+ dep +:+ " and " +:+ ind);
     xlabel := Some ind;
     ylabel := Some dep;
     xlim := None;
     ylim := None |}.

(** The column limits of a numeric column under a cutoff; a column of
    strings has none to compute. *)
Definition col_limits (c : Column) (cut : Q) (lim : option (Q * Q)) : Prop :=
  if Qle_bool cut 0 then lim = None
  else exists x, c = NumCol x /\ limits x cut lim.

(** The state after a call that wrote [g] to [path] and closed the figure
    it drew on. *)
Definition saved (s : State) (path : string) (g : Figure) (rest : list Figure)
    : State :=
  {| self := self s;
     fs := {| dirs := dirs (fs s); files := <[path := g]> (files (fs s)) |};
     figs := rest |}.

(** What [visualize_ynum_to_xcat] draws. *)
Definition xcat_artist (kind : string) (keys : list Value) (vals : list Q)
    : Artist :=
  if bool_decide (kind = "box"%string)
  then BoxPlotBy (Pd.groupby_values keys vals)
  else FramePlot kind (Pd.groupby_sum keys vals).

(** Lookup in an association list. *)
Fixpoint alookup {V} (k : Value) (l : list (Value * V)) : option V :=
  match l with
  | [] => None
  | (k', v) :: t => if decide (k = k') then Some v else alookup k t
  end.

(** [groups] holds, once per key of the rows, the values of its rows. *)
Definition grouped_by (keys : list Value) (vals : list Q)
    (groups : list (Value * list Q)) : Prop :=
  NoDup (List.map fst groups) /\
  (forall k, In k (List.map fst groups) <-> In k (List.map fst (combine keys vals))) /\
  (forall k g, In (k, g) groups -> g = rows_where k keys vals).

(** [sums] holds, once per key of the rows, the sum over its rows. *)
Definition summed_by (keys : list Value) (vals : list Q)
    (sums : list (Value * Q)) : Prop :=
  NoDup (List.map fst sums) /\
  (forall k, In k (List.map fst sums) <-> In k (List.map fst (combine keys vals))) /\
  (forall k t, In (k, t) sums -> t == sum_where k keys vals).


(** *** What a call leaves behind *)

(** The open figures after a successful call: the three methods that draw
    through pyplot close the figure they drew on, and
    [visualize_ynum_to_xcat] closes the new figure pandas made for it. *)
Definition rest_figs (c : Call) (l : list Figure) : list Figure :=
  match c with
  | YnumToXcat _ _ _ => l
  | _ => tail l
  end.

(** Title and axis labels a call gives its picture. *)
Definition title_of (c : Call) : string :=
  match c with
  | Numeric column _ _ => "Distribution of data across " +:+ column
  | Categorical column _ => "Distribution of data across " +:+ column
  | YnumToXnum dep ind _ => "Relationship between " +:+ dep +:+ " and " +:+ ind
  | YnumToXcat dep ind _ => "Relationship between " +:+ dep +:+ " and " +:+ ind
  end.

Definition xlabel_of (c : Call) : string :=
  match c with
  | Numeric column _ _ => column
  | Categorical column _ => column
  | YnumToXnum _ ind _ => ind
  | YnumToXcat _ ind _ => ind
  end.

Definition ylabel_of (c : Call) : string :=
  match c with
  | Numeric _ _ _ => "Frequency"
  | Categorical _ _ => "Frequency"
  | YnumToXnum dep _ _ => dep
  | YnumToXcat dep _ _ => dep
  end.

(** A number that is an integer. *)
Definition integral (q : Q) : Prop := exists z, q == inject_Z z.


(** *** Example data *)

Definition age : list Q :=
  [20; 21; 22; 23; 24; 25; 26; 27; 28; 29].

Definition halves : list Q := [20.5; 29.5].

Definition colors : list string :=
  ["red"; "blue"; "green"; "blue"; "red"; "blue"; "blue"; "green"; "red";
   "blue"]%string.

Definition people : DataFrame :=
  {| index := seq 0 10;
     columns := {[ "age"%string := NumCol age;
                   "color"%string := StrCol colors;
                   "score"%string :=
                     NumCol [1; 2; 3; 4; 5; 6; 7; 8; 9; 10] ]} |}.

Definition fresh : State :=
  {| self := {| df := people; output_directory := "Output" |};
     fs := {| dirs := {[ "Output"%string ]}; files := ∅ |};
     figs := [] |}.
Example int_pos : Py.int (9 # 5) = 1%Z. Proof. reflexivity. Qed.
Example int_neg : Py.int (-9 # 5) = (-1)%Z. Proof. reflexivity. Qed.
Example round_half_even : Py.round (5 # 2) = 2%Z /\ Py.round (7 # 2) = 4%Z.
Proof. split; reflexivity. Qed.
Example range_19_30 :
  Py.range 19 30 1 = [19; 20; 21; 22; 23; 24; 25; 26; 27; 28; 29]%Z.
Proof. reflexivity. Qed.
Example range_desc : Py.range 5 0 (-2) = [5; 3; 1]%Z.
Proof. reflexivity. Qed.
Example percentile_mid :
  option_map Qred (Np.percentile [1; 2; 3; 4; 5] 50) = Some 3.
Proof. reflexivity. Qed.
Example percentile_interp :
  option_map Qred (Np.percentile [4; 1; 3; 2] 50) = Some (5 # 2).
Proof. reflexivity. Qed.
Example percentile_out : Np.percentile [1; 2] 200 = None.
Proof. reflexivity. Qed.

(** * Properties *)

(** ** Arithmetic of [int], [round] and [range] *)

Section Arithmetic.

#[local] Open Scope Z_scope.

Lemma int_floor q : (0 <= q)%Q -> Py.int q = Qfloor q.
Proof.
  destruct q as [n d]. unfold Qle, Py.int, Qfloor. simpl. intros H.
  apply Z.quot_div_nonneg; lia.
Qed.

(** Truncation moves a number by less than one. *)
Lemma int_bounds q :
  (q - 1 < inject_Z (Py.int q))%Q /\ (inject_Z (Py.int q) < q + 1)%Q.
Proof.
  destruct q as [n d]. unfold Py.int, Qlt, Qminus, Qplus, Qopp, inject_Z.
  simpl.
  pose proof (Z.quot_rem' n (Z.pos d)) as E.
  assert (Z.abs (Z.rem n (Z.pos d)) < Z.pos d) as B
    by (pose proof (Z.rem_bound_abs n (Z.pos d)); lia).
  set (t := Z.quot n (Z.pos d)) in *. set (r := Z.rem n (Z.pos d)) in *.
  split; nia.
Qed.

Lemma int_inject z : Py.int (inject_Z z) = z.
Proof. unfold Py.int, inject_Z. simpl. apply Z.quot_1_r. Qed.

Lemma int_proper q z : (q == inject_Z z)%Q -> Py.int q = z.
Proof.
  destruct q as [n d]. unfold Qeq, Py.int, inject_Z. simpl. intros H.
  rewrite Z.mul_1_r in H. subst n. apply Z.quot_mul. lia.
Qed.

Lemma range_len_pos start stop step :
  0 < step -> start < stop ->
  let n := Z.of_nat (Py.range_len start stop step) in
  0 < n /\ start + (n - 1) * step < stop <= start + n * step.
Proof.
  intros Hs Hlt. unfold Py.range_len.
  destruct (Z.ltb_spec 0 step); [| lia].
  set (q := (stop - start + step - 1) / step).
  assert (0 < q) by (apply Z.div_str_pos; lia).
  rewrite Z2Nat.id by lia.
  pose proof (Z.div_mod (stop - start + step - 1) step ltac:(lia)) as E.
  pose proof (Z.mod_pos_bound (stop - start + step - 1) step Hs) as B.
  fold q in E. split; [lia | split; nia].
Qed.

Lemma range_lookup start stop step (i : nat) :
  (i < Py.range_len start stop step)%nat ->
  Py.range start stop step !! i = Some (start + Z.of_nat i * step).
Proof.
  intros H. unfold Py.range. rewrite list_lookup_fmap.
  rewrite lookup_seq_lt by done. reflexivity.
Qed.

Lemma range_length start stop step :
  length (Py.range start stop step) = Py.range_len start stop step.
Proof. unfold Py.range. by rewrite length_map, length_seq. Qed.

Lemma range_step start stop step (i : nat) a b :
  Py.range start stop step !! i = Some a ->
  Py.range start stop step !! S i = Some b ->
  b = a + step.
Proof.
  intros Ha Hb.
  pose proof (lookup_lt_Some _ _ _ Hb) as Hi. rewrite range_length in Hi.
  rewrite range_lookup in Ha by lia. rewrite range_lookup in Hb by lia.
  simplify_eq. lia.
Qed.

End Arithmetic.

(** ** The extremes of a column *)

Lemma fold_qmax_spec t a :
  In (fold_left Np.qmax t a) (a :: t) /\
  forall v, In v (a :: t) -> v <= fold_left Np.qmax t a.
Proof.
  revert a. induction t as [| b t IH]; intros a; simpl.
  - split; [by left |]. intros v [-> | []]. apply Qle_refl.
  - destruct (IH (Np.qmax a b)) as [Hin Hle]. split.
    + destruct Hin as [Hin | Hin]; [| by right; right].
      rewrite <- Hin.
      assert (Np.qmax a b = a \/ Np.qmax a b = b) as [E | E]
        by (unfold Np.qmax; destruct (Qle_bool a b); auto);
        rewrite E; auto.
    + intros v Hv.
      assert (a <= Np.qmax a b /\ b <= Np.qmax a b) as [Ha Hb].
      { unfold Np.qmax. destruct (Qle_bool a b) eqn:E.
        - apply Qle_bool_iff in E. split; [done | apply Qle_refl].
        - split; [apply Qle_refl |].
          destruct (Qlt_le_dec b a) as [L | L]; [by apply Qlt_le_weak |].
          apply Qle_bool_iff in L. congruence. }
      destruct Hv as [<- | [<- | Hv]].
      * eapply Qle_trans; [exact Ha | apply Hle; by left].
      * eapply Qle_trans; [exact Hb | apply Hle; by left].
      * apply Hle. by right.
Qed.

Lemma fold_qmin_spec t a :
  In (fold_left Np.qmin t a) (a :: t) /\
  forall v, In v (a :: t) -> fold_left Np.qmin t a <= v.
Proof.
  revert a. induction t as [| b t IH]; intros a; simpl.
  - split; [by left |]. intros v [-> | []]. apply Qle_refl.
  - destruct (IH (Np.qmin a b)) as [Hin Hle]. split.
    + destruct Hin as [Hin | Hin]; [| by right; right].
      rewrite <- Hin.
      assert (Np.qmin a b = a \/ Np.qmin a b = b) as [E | E]
        by (unfold Np.qmin; destruct (Qle_bool a b); auto);
        rewrite E; auto.
    + intros v Hv.
      assert (Np.qmin a b <= a /\ Np.qmin a b <= b) as [Ha Hb].
      { unfold Np.qmin. destruct (Qle_bool a b) eqn:E.
        - apply Qle_bool_iff in E. split; [apply Qle_refl | done].
        - split; [| apply Qle_refl].
          destruct (Qlt_le_dec b a) as [L | L]; [by apply Qlt_le_weak |].
          apply Qle_bool_iff in L. congruence. }
      destruct Hv as [<- | [<- | Hv]].
      * eapply Qle_trans; [apply Hle; by left | exact Ha].
      * eapply Qle_trans; [apply Hle; by left | exact Hb].
      * apply Hle. by right.
Qed.

Lemma max_spec x mx :
  Np.max x = Some mx -> In mx x /\ forall v, In v x -> v <= mx.
Proof.
  destruct x as [| a t]; [done |]. simpl. intros [= <-].
  apply fold_qmax_spec.
Qed.

Lemma min_spec x mn :
  Np.min x = Some mn -> In mn x /\ forall v, In v x -> mn <= v.
Proof.
  destruct x as [| a t]; [done |]. simpl. intros [= <-].
  apply fold_qmin_spec.
Qed.

Lemma min_le_max x mn mx : Np.min x = Some mn -> Np.max x = Some mx -> mn <= mx.
Proof.
  intros Hn Hx. apply max_spec in Hx as [_ Hx]. apply min_spec in Hn as [Hn _].
  by apply Hx.
Qed.

(** ** Bin width *)




(** ** Bin edges *)

(** C3: the edges do not always reach the maximum.  On the column 20.5,
    29.5 with [nbins = 5] the bin width is 1 and the edges are 19, 20, ..,
    29: the maximum 29.5 lies above the last edge and falls in no bin. *)
Theorem edges_stop_short :
  bin_width halves 5 = Ok 1%Z /\
  bins halves 1 = [19; 20; 21; 22; 23; 24; 25; 26; 27; 28; 29]%Z /\
  Np.max halves = Some 29.5 /\
  ~ reaches_max halves 5.
Proof.
  split; [reflexivity |]. split; [reflexivity |]. split; [reflexivity |].
  intros H. specialize (H 1%Z 20.5 29.5 eq_refl eq_refl eq_refl).
  destruct H as (a & b & _ & Hb & _ & Hle).
  vm_compute in Hb. injection Hb as <-. vm_compute in Hle. by apply Hle.
Qed.

(** What does hold of the edges for a positive bin width: they start at
    [int(min - 1)], below the minimum, step by the bin width, and end less
    than 1 below the maximum at worst, at or above it when the maximum is an
    integer; for 20 .. 29 with [nbins = 5] the width is 1 and the edges are
    19, 20, .., 29. *)
Theorem bins_span x nbins w mn mx :
  bin_width x nbins = Ok w -> (0 < w)%Z ->
  Np.min x = Some mn -> Np.max x = Some mx ->
  (exists first last_,
     head (bins x w) = Some first /\ last (bins x w) = Some last_ /\
     first = Py.int (mn - 1) /\ inject_Z first < mn /\
     mx - 1 < inject_Z last_ /\ inject_Z last_ < mx + inject_Z w /\
     (forall z, mx == inject_Z z -> mx <= inject_Z last_) /\
     (forall (i : nat) a b, bins x w !! i = Some a -> bins x w !! S i = Some b ->
        b = (a + w)%Z)) /\
  bin_width age 5 = Ok 1%Z /\
  bins age 1 = [19; 20; 21; 22; 23; 24; 25; 26; 27; 28; 29]%Z.
Proof.
  intros _ Hw Hn Hx. split; [| split; reflexivity].
  unfold bins. rewrite Hx, Hn.
  remember (Py.int (mn - 1)) as start eqn:Es.
  remember (Py.int (mx + inject_Z w)) as stop eqn:Et.
  pose proof (min_le_max _ _ _ Hn Hx) as Hle.
  destruct (int_bounds (mn - 1)) as [_ Hs]. rewrite <- Es in Hs.
  destruct (int_bounds (mx + inject_Z w)) as [Ht Ht']. rewrite <- Et in Ht, Ht'.
  assert (1 <= inject_Z w) as Hw1.
  { replace 1 with (inject_Z 1) by reflexivity. rewrite <- Zle_Qle. lia. }
  assert (start < stop)%Z as Hlt by (rewrite Zlt_Qlt; lra).
  destruct (range_len_pos start stop w Hw Hlt) as (Hpos & Hlast & Hstop).
  remember (Py.range_len start stop w) as n eqn:En.
  remember (start + (Z.of_nat n - 1) * w)%Z as lst eqn:El.
  assert (lst < stop /\ stop <= lst + w)%Z as [Hl1 Hl2] by (subst lst; lia).
  exists start, lst.
  assert (Py.range start stop w !! (n - 1)%nat = Some lst) as Hl.
  { rewrite range_lookup by (rewrite <- En; lia). subst lst.
    by replace (Z.of_nat (n - 1)) with (Z.of_nat n - 1)%Z by lia. }
  assert (lst + 1 <= stop)%Z as Hl3 by lia.
  rewrite Zlt_Qlt in Hl1. rewrite Zle_Qle, inject_Z_plus in Hl2, Hl3.
  change (inject_Z 1) with 1 in Hl3.
  repeat split.
  - rewrite head_lookup, range_lookup by (rewrite <- En; lia). f_equal. lia.
  - rewrite last_lookup, range_length, <- En.
    replace (pred n) with (n - 1)%nat by lia. exact Hl.
  - lra.
  - lra.
  - lra.
  - intros z Hz.
    assert (stop = (z + w)%Z) as E.
    { rewrite Et. apply int_proper. rewrite inject_Z_plus, Hz. reflexivity. }
    rewrite E, inject_Z_plus in Hl2. rewrite Hz. lra.
  - intros i a b. apply range_step.
Qed.

Lemma bins_span_age :
  (exists first last_,
     head (bins age 1) = Some first /\ last (bins age 1) = Some last_ /\
     first = Py.int (20 - 1) /\ inject_Z first < 20 /\
     29 - 1 < inject_Z last_ /\ inject_Z last_ < 29 + inject_Z 1 /\
     (forall z, 29 == inject_Z z -> 29 <= inject_Z last_) /\
     (forall (i : nat) a b, bins age 1 !! i = Some a ->
        bins age 1 !! S i = Some b -> b = (a + 1)%Z)) /\
  bin_width age 5 = Ok 1%Z /\
  bins age 1 = [19; 20; 21; 22; 23; 24; 25; 26; 27; 28; 29]%Z.
Proof.
  apply (bins_span age 5 1 20 29); [reflexivity | lia | reflexivity | reflexivity].
Defined.

(** ** Running the methods *)

Lemma bind_ok {A B} (m : M A) (f : A -> M B) s b s' :
  (m ≫= f) s = (Ok b, s') ->
  exists a s1, m s = (Ok a, s1) /\ f a s1 = (Ok b, s').
Proof.
  unfold mbind, M_bind. destruct (m s) as [[a | e] s1]; [eauto | discriminate].
Qed.

Ltac run :=
  unfold mbind, M_bind, mret, M_ret, raise, lift, get_self, numeric,
    Pd.getitem, Plt.hist, Plt.scatter, Plt.set_xlim, Plt.set_ylim,
    Plt.set_title, Plt.set_xlabel, Plt.set_ylabel, Plt.savefig, Plt.clear,
    Plt.close, Plt.on_current, Plt.new_figure, Plt.set_figs, Plt.set_files,
    saved, current in *;
  simpl in *.

Lemma numeric_run column nbins c s r s' :
  visualize_numeric column nbins c s = (r, s') ->
  self s' = self s /\ dirs (fs s') = dirs (fs s) /\
  match r with
  | Raise _ =>
      fs s' = fs s /\ (columns (df (self s)) !! column = None -> s' = s)
  | Ok _ =>
      exists x w lim,
        columns (df (self s)) !! column = Some (NumCol x) /\
        bin_width x nbins = Ok w /\ limits x c lim /\
        s' = saved s (target (output_directory (self s)) (Numeric column nbins c))
               (numeric_figure column x (bins x w) lim (current s))
               (tail (figs s))
  end.
Proof.
  destruct s as [me f fg]. unfold visualize_numeric, limits, left, right. run.
  destruct (columns (df me) !! column) as [[x | x] |] eqn:Hc; simpl;
    try (intros [= <- <-]; by destruct f).
  destruct (bin_width x nbins) as [w | e] eqn:Hw; simpl;
    try (intros [= <- <-]; by destruct f).
  destruct (Plt.decreases (bins x w)) eqn:Hd; simpl;
    try (intros [= <- <-]; by destruct f).
  destruct (Qle_bool c 0) eqn:Hcut; simpl.
  - destruct fg as [| g t]; simpl; intros [= <- <-]; repeat split;
      exists x, w, None; by rewrite ?Hcut.
  - destruct (Np.percentile x (c * 100)) as [p |] eqn:Hp; simpl;
      try (destruct fg; simpl; intros [= <- <-]; by destruct f).
    destruct (Np.percentile x ((1 - c) * 100)) as [q |] eqn:Hq; simpl;
      try (destruct fg; simpl; intros [= <- <-]; by destruct f).
    destruct (Np.min _) as [l |] eqn:Hl; simpl;
      try (destruct fg; simpl; intros [= <- <-]; by destruct f).
    destruct (Np.max _) as [r' |] eqn:Hr; simpl;
      try (destruct fg; simpl; intros [= <- <-]; by destruct f).
    destruct fg as [| g t]; simpl; intros [= <- <-]; repeat split;
      exists x, w, (Some (l, r')); rewrite ?Hcut; (split; [done |]);
      (split; [done |]);
      (split; [exists l, r'; by rewrite Hp, Hq, Hl, Hr | done]).
Qed.

(** Closes the case of a call that raised. *)
Ltac aborted f :=
  solve [destruct f; repeat split; try done;
         try (intros [? | ?]; congruence)].

Lemma xnum_run dep ind c s r s' :
  visualize_ynum_to_xnum dep ind c s = (r, s') ->
  self s' = self s /\ dirs (fs s') = dirs (fs s) /\
  match r with
  | Raise _ =>
      fs s' = fs s /\
      (columns (df (self s)) !! dep = None \/
       columns (df (self s)) !! ind = None -> s' = s)
  | Ok _ =>
      exists x y xl yl,
        columns (df (self s)) !! ind = Some x /\
        columns (df (self s)) !! dep = Some y /\
        col_limits x c xl /\ col_limits y c yl /\
        s' = saved s (target (output_directory (self s)) (YnumToXnum dep ind c))
               (scatter_figure dep ind x y xl yl (current s))
               (tail (figs s))
  end.
Proof.
  destruct s as [me f fg].
  unfold visualize_ynum_to_xnum, trim, col_limits, limits, left, right. run.
  destruct (columns (df me) !! dep) as [y |] eqn:Hy; simpl;
    try (intros [= <- <-]; aborted f).
  destruct (columns (df me) !! ind) as [x |] eqn:Hx; simpl;
    try (intros [= <- <-]; aborted f).
  destruct (Qle_bool c 0) eqn:Hcut; simpl.
  - destruct fg as [| g t]; simpl; intros [= <- <-]; repeat split;
      exists x, y, None, None; by rewrite ?Hcut.
  - destruct x as [x | x]; simpl;
      try (destruct fg; simpl; intros [= <- <-]; aborted f).
    destruct (Np.percentile x (c * 100)) as [p |] eqn:Hp; simpl;
      try (destruct fg; simpl; intros [= <- <-]; aborted f).
    destruct (Np.percentile x ((1 - c) * 100)) as [q |] eqn:Hq; simpl;
      try (destruct fg; simpl; intros [= <- <-]; aborted f).
    destruct y as [y | y]; simpl;
      try (destruct fg; simpl; intros [= <- <-]; aborted f).
    destruct (Np.percentile y (c * 100)) as [p' |] eqn:Hp'; simpl;
      try (destruct fg; simpl; intros [= <- <-]; aborted f).
    destruct (Np.percentile y ((1 - c) * 100)) as [q' |] eqn:Hq'; simpl;
      try (destruct fg; simpl; intros [= <- <-]; aborted f).
    destruct (Np.min (List.filter _ x)) as [l |] eqn:Hl; simpl;
      try (destruct fg; simpl; intros [= <- <-]; aborted f).
    destruct (Np.max (List.filter _ x)) as [r' |] eqn:Hr; simpl;
      try (destruct fg; simpl; intros [= <- <-]; aborted f).
    destruct (Np.min (List.filter _ y)) as [b |] eqn:Hb; simpl;
      try (destruct fg; simpl; intros [= <- <-]; aborted f).
    destruct (Np.max (List.filter _ y)) as [t' |] eqn:Ht; simpl;
      try (destruct fg; simpl; intros [= <- <-]; aborted f).
    destruct fg as [| g t]; simpl; intros [= <- <-]; repeat split;
      exists (NumCol x), (NumCol y), (Some (l, r')), (Some (b, t'));
      rewrite ?Hcut; (split; [done |]); (split; [done |]);
      (split; [exists x; split; [done |];
               exists l, r'; by rewrite Hp, Hq, Hl, Hr |]);
      (split; [exists y; split; [done |];
               exists b, t'; by rewrite Hp', Hq', Hb, Ht | done]).
Qed.

Lemma categorical_kind_check kind :
  negb (bool_decide (kind ∈ Pd.all_kinds)) = false ->
  bool_decide (kind ∈ Pd.dataframe_kinds) = false ->
  kind ∈ categorical_kinds.
Proof.
  intros H1 H2. apply negb_false_iff, bool_decide_eq_true in H1.
  apply bool_decide_eq_false in H2.
  unfold Pd.all_kinds, Pd.dataframe_kinds, categorical_kinds in *.
  rewrite !elem_of_cons, elem_of_nil in *. tauto.
Qed.

Lemma xcat_kind_check kind :
  negb (bool_decide (kind ∈ Pd.all_kinds)) = false ->
  bool_decide (kind ∈ Pd.dataframe_kinds) = false ->
  bool_decide (kind = "pie"%string) = false ->
  kind ∈ xcat_kinds.
Proof.
  intros H1 H2 H3. apply negb_false_iff, bool_decide_eq_true in H1.
  apply bool_decide_eq_false in H2. apply bool_decide_eq_false in H3.
  unfold Pd.all_kinds, Pd.dataframe_kinds, xcat_kinds in *.
  rewrite !elem_of_cons, elem_of_nil in *. tauto.
Qed.

Lemma categorical_run column kind s r s' :
  visualize_categorical column kind s = (r, s') ->
  match r with
  | Raise _ => s' = s
  | Ok _ =>
      exists c,
        columns (df (self s)) !! column = Some c /\
        kind ∈ categorical_kinds /\
        s' = saved s (target (output_directory (self s))
                        (Categorical column kind))
               (categorical_figure column kind (Pd.value_counts (values c))
                  (current s))
               (tail (figs s))
  end.
Proof.
  destruct s as [me f fg]. unfold visualize_categorical, series_plot. run.
  destruct (columns (df me) !! column) as [c |] eqn:Hc; simpl;
    try (by intros [= <- <-]).
  destruct (negb (bool_decide (kind ∈ Pd.all_kinds))) eqn:H1; simpl;
    try (by intros [= <- <-]).
  destruct (bool_decide (kind ∈ Pd.dataframe_kinds)) eqn:H2; simpl;
    try (by intros [= <- <-]).
  pose proof (categorical_kind_check kind H1 H2).
  destruct fg as [| g t]; simpl; intros [= <- <-]; by exists c.
Qed.

Lemma xcat_run dep ind kind s r s' :
  visualize_ynum_to_xcat dep ind kind s = (r, s') ->
  match r with
  | Raise _ => s' = s
  | Ok _ =>
      exists kc vals,
        columns (df (self s)) !! ind = Some kc /\
        columns (df (self s)) !! dep = Some (NumCol vals) /\
        kind ∈ xcat_kinds /\
        s' = saved s (target (output_directory (self s))
                        (YnumToXcat dep ind kind))
               (xcat_figure dep ind (xcat_artist kind (values kc) vals))
               (figs s)
  end.
Proof.
  destruct s as [me f fg].
  unfold visualize_ynum_to_xcat, boxplot, select2, frame_plot, grouped_sums,
    xcat_artist. run.
  destruct (bool_decide (kind = "box"%string)) eqn:Hbox; simpl.
  - apply bool_decide_eq_true in Hbox. subst kind.
    destruct (columns (df me) !! ind) as [kc |] eqn:Hk; simpl;
      try (by intros [= <- <-]).
    destruct (columns (df me) !! dep) as [[v | v] |] eqn:Hv; simpl;
      destruct (decide (ind = dep)); simpl; try (by intros [= <- <-]).
    intros [= <- <-]. exists kc, v. repeat split; try done.
    unfold xcat_kinds. set_solver.
  - destruct (columns (df me) !! ind) as [kc |] eqn:Hk; simpl;
      try (by intros [= <- <-]).
    destruct (columns (df me) !! dep) as [[v | v] |] eqn:Hv; simpl;
      destruct (decide (ind = dep)); simpl; try (by intros [= <- <-]);
      destruct (negb (bool_decide (kind ∈ Pd.all_kinds))) eqn:H1; simpl;
      try (by intros [= <- <-]);
      destruct (bool_decide (kind ∈ Pd.dataframe_kinds)) eqn:H2; simpl;
      try (by intros [= <- <-]);
      destruct (bool_decide (kind = "pie"%string)) eqn:H3; simpl;
      try (by intros [= <- <-]).
    pose proof (xcat_kind_check kind H1 H2 H3).
    intros [= <- <-]. by exists kc, v.
Qed.

Lemma run_ok call s s' :
  run call s = (Ok tt, s') ->
  exists g rest, s' = saved s (target (output_directory (self s)) call) g rest.
Proof.
  destruct call as [column nbins c | column kind | dep ind c | dep ind kind];
    simpl; intros H.
  - apply numeric_run in H as (_ & _ & x & w & lim & _ & _ & _ & ->). eauto.
  - apply categorical_run in H as (c & _ & _ & ->). eauto.
  - apply xnum_run in H as (_ & _ & x & y & xl & yl & _ & _ & _ & _ & ->). eauto.
  - apply xcat_run in H as (kc & v & _ & _ & _ & ->). eauto.
Qed.

(** ** Percentile trimming *)


Lemma positive_cutoff c : 0 < c -> Qle_bool c 0 = false.
Proof.
  intros H. destruct (Qle_bool c 0) eqn:E; [| done].
  apply Qle_bool_iff in E. lra.
Qed.



(** ** Files *)

(** C6: a successful call of any of the four methods writes one file, at
    the documented path, and changes no other file or directory; the same
    call made again succeeds onto the same path and leaves the same set of
    files. *)
Theorem one_file_per_call call s s' :
  run call s = (Ok tt, s') ->
  (exists g, files (fs s')
             = <[target (output_directory (self s)) call := g]> (files (fs s))) /\
  dirs (fs s') = dirs (fs s) /\
  forall s'', run call s' = (Ok tt, s'') ->
    dom (files (fs s'')) = dom (files (fs s')) /\
    is_Some (files (fs s'') !! target (output_directory (self s)) call).
Proof.
  intros H. destruct (run_ok _ _ _ H) as (g & rest & ->). simpl.
  split; [eauto |]. split; [done |].
  intros s'' H'. destruct (run_ok _ _ _ H') as (g' & rest' & ->). simpl.
  rewrite !dom_insert_L. split; [by rewrite (assoc_L (∪)), union_idemp_L |].
  rewrite lookup_insert_eq. eauto.
Qed.

(** ** Chart kinds *)

(** C9: a kind outside the kinds a method can draw makes the call raise,
    before anything is drawn or written: the state is as it was. *)
Theorem unsupported_kind_fails column dep ind kind s :
  (kind ∉ categorical_kinds ->
   exists e, visualize_categorical column kind s = (Raise e, s)) /\
  (kind ∉ xcat_kinds ->
   exists e, visualize_ynum_to_xcat dep ind kind s = (Raise e, s)).
Proof.
  split; intros Hk.
  - destruct (visualize_categorical column kind s) as [r s'] eqn:E.
    apply categorical_run in E. destruct r as [[] | e].
    + destruct E as (c & _ & Hin & _). contradiction.
    + subst. eauto.
  - destruct (visualize_ynum_to_xcat dep ind kind s) as [r s'] eqn:E.
    apply xcat_run in E. destruct r as [[] | e].
    + destruct E as (kc & v & _ & _ & Hin & _). contradiction.
    + subst. eauto.
Qed.

(** ** Failed calls *)


(** *** The statements above at work on the example data *)



Lemma one_file_per_call_witness :
  let call := Categorical "color" "bar" in
  let s' := snd (run call fresh) in
  run call fresh = (Ok tt, s') /\
  (exists g, files (fs s') = <["Output/bar_color.png"%string := g]> ∅) /\
  dirs (fs s') = {[ "Output"%string ]} /\
  run call s' = (Ok tt, snd (run call s')) /\
  dom (files (fs (snd (run call s')))) = dom (files (fs s')).
Proof.
  intros call s'.
  assert (run call fresh = (Ok tt, s')) as H by (vm_compute; reflexivity).
  assert (run call s' = (Ok tt, snd (run call s'))) as H'
    by (vm_compute; reflexivity).
  destruct (one_file_per_call call fresh s' H) as (Hg & Hd & Hagain).
  split; [exact H |]. split; [exact Hg |]. split; [exact Hd |].
  split; [exact H' |]. exact (proj1 (Hagain _ H')).
Defined.

Lemma unsupported_kind_fails_witness :
  ("violin"%string ∉ categorical_kinds) /\
  ("violin"%string ∉ xcat_kinds) /\
  (exists e, visualize_categorical "color" "violin" fresh = (Raise e, fresh)) /\
  (exists e, visualize_ynum_to_xcat "score" "color" "violin" fresh
             = (Raise e, fresh)).
Proof.
  assert ("violin"%string ∉ categorical_kinds) as H1
    by (apply (bool_decide_unpack _); by vm_compute).
  assert ("violin"%string ∉ xcat_kinds) as H2
    by (apply (bool_decide_unpack _); by vm_compute).
  destruct (unsupported_kind_fails "color" "score" "color" "violin" fresh)
    as [K1 K2].
  split; [exact H1 |]. split; [exact H2 |]. split; [exact (K1 H1) | exact (K2 H2)].
Defined.



(** ** Counting and grouping *)

Section Accumulate.

Context {R V : Type} (key : R -> Value) (u : R -> option V -> V).

(** One pass over the rows, as [tally] and the group-by functions make. *)
#[local] Abbreviation pass rows acc :=
  (fold_left (fun a r => Pd.upsert (u r) (key r) a) rows acc).

(** What the pass accumulates for key [k]. *)
#[local] Abbreviation gathered k rows o :=
  (fold_left (fun a r => Some (u r a))
             (List.filter (fun r => bool_decide (key r = k)) rows) o).

Lemma alookup_upsert f k k' (acc : list (Value * V)) :
  alookup k (Pd.upsert f k' acc)
  = if decide (k = k') then Some (f (alookup k' acc)) else alookup k acc.
Proof.
  induction acc as [| [k0 v] t IH]; simpl.
  - by destruct (decide (k = k')).
  - destruct (decide (k' = k0)) as [-> | Hne]; simpl.
    + by destruct (decide (k = k0)).
    + destruct (decide (k = k0)) as [-> | ?].
      * by rewrite decide_False by done.
      * exact IH.
Qed.

Lemma keys_upsert f k (acc : list (Value * V)) :
  (k ∈ acc.*1 /\ (Pd.upsert f k acc).*1 = acc.*1) \/
  ((k ∉ acc.*1) /\ (Pd.upsert f k acc).*1 = acc.*1 ++ [k]).
Proof.
  induction acc as [| [k0 v] t IH]; cbn [Pd.upsert].
  - right. split; [apply not_elem_of_nil | done].
  - destruct (decide (k = k0)) as [-> | Hne]; rewrite !fmap_cons; cbn [fst].
    + left. split; [apply list_elem_of_here | done].
    + destruct IH as [[Hin E] | [Hin E]]; [left | right]; rewrite E;
        (split; [| done]); rewrite elem_of_cons; tauto.
Qed.

Lemma nodup_upsert f k (acc : list (Value * V)) :
  NoDup acc.*1 -> NoDup (Pd.upsert f k acc).*1.
Proof.
  intros H. destruct (keys_upsert f k acc) as [[_ E] | [Hin E]]; rewrite E.
  - done.
  - apply NoDup_app. split; [done |]. split; [| apply NoDup_singleton].
    intros x Hx Hk. apply list_elem_of_singleton in Hk. by subst.
Qed.

Lemma pass_lookup k rows acc :
  alookup k (pass rows acc) = gathered k rows (alookup k acc).
Proof.
  revert acc.
  induction rows as [| r rows IH]; intros acc; simpl; [done |].
  rewrite IH, alookup_upsert.
  destruct (decide (k = key r)) as [-> | Hne].
  - by rewrite bool_decide_eq_true_2.
  - by rewrite bool_decide_eq_false_2.
Qed.

Lemma pass_nodup rows acc : NoDup acc.*1 -> NoDup (pass rows acc).*1.
Proof.
  revert acc.
  induction rows as [| r rows IH]; intros acc H; simpl; [done |].
  apply IH. by apply nodup_upsert.
Qed.

Lemma pass_keys k rows acc :
  k ∈ (pass rows acc).*1 <-> k ∈ acc.*1 \/ k ∈ key <$> rows.
Proof.
  revert acc.
  induction rows as [| r rows IH]; intros acc; simpl.
  - rewrite elem_of_nil. tauto.
  - rewrite IH, elem_of_cons.
    destruct (keys_upsert (u r) (key r) acc) as [[Hin E] | [Hin E]]; rewrite E.
    + split; [tauto |]. intros [? | [-> | ?]]; tauto.
    + rewrite elem_of_app, list_elem_of_singleton. tauto.
Qed.

End Accumulate.

Lemma alookup_elem {V} k v (l : list (Value * V)) :
  NoDup l.*1 -> (k, v) ∈ l <-> alookup k l = Some v.
Proof.
  induction l as [| [k0 v0] t IH]; simpl; intros H.
  - rewrite elem_of_nil. split; [tauto | discriminate].
  - apply NoDup_cons in H as [Hk H]. rewrite elem_of_cons.
    destruct (decide (k = k0)) as [-> | Hne].
    + split.
      * intros [[= ->] | Hin]; [done |].
        exfalso. apply Hk. apply list_elem_of_fmap. by exists (k0, v).
      * intros [= ->]. by left.
    + rewrite <- (IH H). split; [| tauto]. intros [[= -> ->] | ?]; done.
Qed.

Lemma insert_by_perm {A} (leb : A -> A -> bool) a l :
  Pd.insert_by leb a l ≡ₚ a :: l.
Proof.
  induction l as [| b t IH]; simpl; [done |].
  destruct (leb a b); [done |]. rewrite IH. apply perm_swap.
Qed.

Lemma sort_by_perm {A} (leb : A -> A -> bool) l : Pd.sort_by leb l ≡ₚ l.
Proof.
  induction l as [| a t IH]; simpl; [done |].
  unfold Pd.sort_by in *. simpl. by rewrite insert_by_perm, IH.
Qed.

(** A sum accumulated from the left is the sum of the values. *)
Lemma gathered_sum (rows : list (Value * Q)) a t :
  fold_left (fun o r => Some match o with
                             | None => snd r
                             | Some s => s + snd r
                             end) rows (Some a) = Some t ->
  t == a + qsum (List.map snd rows).
Proof.
  revert a. induction rows as [| r rows IH]; intros a; simpl.
  - intros [= ->]. lra.
  - intros H. apply IH in H. lra.
Qed.

Lemma gathered_values (rows : list (Value * Q)) a g :
  fold_left (fun o r => Some (default [] o ++ [snd r])) rows (Some a) = Some g ->
  g = a ++ List.map snd rows.
Proof.
  revert a. induction rows as [| r rows IH]; intros a; simpl.
  - intros [= ->]. by rewrite app_nil_r.
  - intros H. apply IH in H. by rewrite <- app_assoc in H.
Qed.

Lemma groupby_sum_spec keys vals : summed_by keys vals (Pd.groupby_sum keys vals).
Proof.
  unfold summed_by, Pd.groupby_sum.
  set (acc := fold_left _ (combine keys vals) []).
  assert (NoDup acc.*1) as Hnd by (apply (pass_nodup fst); constructor).
  pose proof (sort_by_perm Pd.by_key acc) as Hp.
  assert ((Pd.sort_by Pd.by_key acc).*1 ≡ₚ acc.*1) as Hpk by (by rewrite Hp).
  split; [by rewrite Hpk |]. split.
  - intros k. rewrite <- !list_elem_of_In. rewrite Hpk.
    unfold acc. rewrite (pass_keys fst). simpl. rewrite elem_of_nil. tauto.
  - intros k t Hin. apply list_elem_of_In in Hin. rewrite Hp in Hin.
    apply alookup_elem in Hin; [| done].
    unfold acc in Hin. rewrite (pass_lookup fst) in Hin. simpl in Hin.
    unfold sum_where, rows_where.
    destruct (List.filter _ (combine keys vals)) as [| r rows]; [done |].
    simpl in *. apply gathered_sum in Hin. lra.
Qed.

Lemma groupby_values_spec keys vals :
  grouped_by keys vals (Pd.groupby_values keys vals).
Proof.
  unfold grouped_by, Pd.groupby_values.
  set (acc := fold_left _ (combine keys vals) []).
  assert (NoDup acc.*1) as Hnd by (apply (pass_nodup fst); constructor).
  pose proof (sort_by_perm Pd.by_key acc) as Hp.
  assert ((Pd.sort_by Pd.by_key acc).*1 ≡ₚ acc.*1) as Hpk by (by rewrite Hp).
  split; [by rewrite Hpk |]. split.
  - intros k. rewrite <- !list_elem_of_In. rewrite Hpk.
    unfold acc. rewrite (pass_keys fst). simpl. rewrite elem_of_nil. tauto.
  - intros k g Hin. apply list_elem_of_In in Hin. rewrite Hp in Hin.
    apply alookup_elem in Hin; [| done].
    unfold acc in Hin. rewrite (pass_lookup fst) in Hin. simpl in Hin.
    unfold rows_where.
    destruct (List.filter _ (combine keys vals)) as [| r rows]; [done |].
    simpl in *. by apply gathered_values in Hin.
Qed.

(** C8: a successful [visualize_ynum_to_xcat] saves a figure with one
    artist: for the kind ["box"] a box plot of the dependent values grouped
    by the independent variable; for every other kind a chart of that kind
    over the sums of the dependent variable within each group. *)
Theorem xcat_draws dep ind kind s s' :
  visualize_ynum_to_xcat dep ind kind s = (Ok tt, s') ->
  exists kc vals g,
    columns (df (self s)) !! ind = Some kc /\
    columns (df (self s)) !! dep = Some (NumCol vals) /\
    files (fs s') !! (output_directory (self s) +:+ "/" +:+ kind +:+ "_"
                      +:+ dep +:+ "_" +:+ ind +:+ ".png") = Some g /\
    (kind = "box"%string ->
     exists groups, artists g = [BoxPlotBy groups] /\
                    grouped_by (values kc) vals groups) /\
    (kind <> "box"%string ->
     exists sums, artists g = [FramePlot kind sums] /\
                  summed_by (values kc) vals sums).
Proof.
  intros H. apply xcat_run in H as (kc & vals & Hk & Hv & _ & ->).
  exists kc, vals, (xcat_figure dep ind (xcat_artist kind (values kc) vals)).
  split; [done |]. split; [done |].
  split; [unfold saved; simpl; apply lookup_insert_eq |].
  unfold xcat_artist. split; intros Hbox.
  - rewrite bool_decide_eq_true_2 by done.
    eexists. split; [reflexivity | apply groupby_values_spec].
  - rewrite bool_decide_eq_false_2 by done.
    eexists. split; [reflexivity | apply groupby_sum_spec].
Qed.

Lemma xcat_draws_witness :
  let s' := snd (visualize_ynum_to_xcat "score" "color" "bar" fresh) in
  visualize_ynum_to_xcat "score" "color" "bar" fresh = (Ok tt, s') /\
  exists kc vals g,
    columns people !! "color"%string = Some kc /\
    columns people !! "score"%string = Some (NumCol vals) /\
    files (fs s') !! "Output/bar_score_color.png"%string = Some g /\
    ("bar"%string = "box"%string ->
     exists groups, artists g = [BoxPlotBy groups] /\
                    grouped_by (values kc) vals groups) /\
    ("bar"%string <> "box"%string ->
     exists sums, artists g = [FramePlot "bar" sums] /\
                  summed_by (values kc) vals sums).
Proof.
  intros s'.
  assert (visualize_ynum_to_xcat "score" "color" "bar" fresh = (Ok tt, s'))
    as H by (vm_compute; reflexivity).
  split; [exact H |]. exact (xcat_draws "score" "color" "bar" fresh s' H).
Defined.

(** ** Value counts *)

Lemma count_fold {A} (rows : list A) o :
  fold_left (fun o _ => Some (S (default O o))) rows o
  = match rows with
    | [] => o
    | _ => Some (length rows + default O o)%nat
    end.
Proof.
  revert o. induction rows as [| r rows IH]; intros o; [done |].
  simpl. rewrite IH. destruct rows; simpl; f_equal; lia.
Qed.

Lemma tally_lookup k l :
  alookup k (Pd.tally l)
  = match List.filter (fun r => bool_decide (r = k)) l with
    | [] => None
    | rows => Some (length rows)
    end.
Proof.
  unfold Pd.tally.
  rewrite (pass_lookup (fun r => r) (fun _ o => S (default O o))).
  simpl. rewrite count_fold.
  destruct (List.filter _ l); [done |]. simpl. f_equal. lia.
Qed.

Lemma filter_length_perm {A} (f : A -> bool) l l' :
  l ≡ₚ l' -> length (List.filter f l) = length (List.filter f l').
Proof.
  induction 1 as [| x l l' _ IH | x y l | l l' l'' _ IH1 _ IH2]; simpl.
  - done.
  - destruct (f x); simpl; congruence.
  - destruct (f x), (f y); reflexivity.
  - congruence.
Qed.

Lemma tally_perm l l' : l ≡ₚ l' -> Pd.tally l ≡ₚ Pd.tally l'.
Proof.
  intros H.
  assert (forall l, NoDup (Pd.tally l).*1) as Hnd.
  { intros l0. apply (pass_nodup (fun r => r) (fun _ o => S (default O o))).
    constructor. }
  apply NoDup_Permutation; try (eapply NoDup_fmap_1; apply Hnd).
  intros [k n]. rewrite !alookup_elem by apply Hnd. rewrite !tally_lookup.
  assert (length (List.filter (fun r => bool_decide (r = k)) l)
          = length (List.filter (fun r => bool_decide (r = k)) l')) as E.
  { by apply filter_length_perm. }
  destruct (List.filter _ l), (List.filter _ l'); simpl in *;
    try discriminate; [done |]. by rewrite E.
Qed.

Lemma perm3 {A} (a b c : A) l :
  l ≡ₚ [a; b; c] ->
  l = [a; b; c] \/ l = [a; c; b] \/ l = [b; a; c] \/
  l = [b; c; a] \/ l = [c; a; b] \/ l = [c; b; a].
Proof.
  intros H. pose proof (Permutation_length H) as Hlen.
  destruct l as [| x [| y [| z [| ? ?]]]]; try discriminate.
  assert (a ∈ [x; y; z]) as Ha by (rewrite H; apply list_elem_of_here).
  rewrite !elem_of_cons, elem_of_nil in Ha.
  destruct Ha as [-> | [-> | [-> | []]]].
  - apply Permutation_cons_inv, Permutation_sym, Permutation_length_2_inv in H.
    destruct H as [[= -> ->] | [= -> ->]]; tauto.
  - rewrite (perm_swap y x [z]) in H.
    apply Permutation_cons_inv, Permutation_sym, Permutation_length_2_inv in H.
    destruct H as [[= -> ->] | [= -> ->]]; tauto.
  - assert ([x; y; z] ≡ₚ z :: [x; y]) as E
      by (change ([x; y] ++ [z] ≡ₚ [z] ++ [x; y]); apply Permutation_app_comm).
    rewrite E in H.
    apply Permutation_cons_inv, Permutation_sym, Permutation_length_2_inv in H.
    destruct H as [[= -> ->] | [= -> ->]]; tauto.
Qed.

Lemma color_counts l :
  l ≡ₚ repeat "red"%string 3 ++ repeat "blue"%string 5
       ++ repeat "green"%string 2 ->
  Pd.value_counts (values (StrCol l))
  = [(VStr "blue", 5%nat); (VStr "red", 3%nat); (VStr "green", 2%nat)].
Proof.
  intros H. unfold Pd.value_counts, values.
  apply (Permutation_map VStr), tally_perm in H.
  assert (Pd.tally (List.map VStr (repeat "red"%string 3
                                   ++ repeat "blue"%string 5
                                   ++ repeat "green"%string 2))
          = [(VStr "red", 3%nat); (VStr "blue", 5%nat); (VStr "green", 2%nat)])
    as E by (vm_compute; reflexivity).
  rewrite E in H. apply perm3 in H.
  destruct H as [-> | [-> | [-> | [-> | [-> | ->]]]]];
    vm_compute; reflexivity.
Qed.

(** C7: for a column ["color"] holding red three times, blue five times and
    green twice, in any order, [visualize_categorical] with kind ["bar"]
    saves [bar_color.png] in the output directory, with one bar per colour,
    of height 5 for blue, 3 for red and 2 for green, the most frequent
    first. *)
Theorem color_bars s (l : list string) :
  columns (df (self s)) !! "color"%string = Some (StrCol l) ->
  l ≡ₚ repeat "red"%string 3 ++ repeat "blue"%string 5
       ++ repeat "green"%string 2 ->
  figs s = [] ->
  exists s',
    visualize_categorical "color" "bar" s = (Ok tt, s') /\
    files (fs s') !! (output_directory (self s) +:+ "/bar_color.png")
    = Some {| artists :=
                [SeriesPlot "bar" [(VStr "blue", 5%nat); (VStr "red", 3%nat);
                                   (VStr "green", 2%nat)]];
              title := Some "Distribution of data across color"%string;
              xlabel := Some "color"%string;
              ylabel := Some "Frequency"%string;
              xlim := None;
              ylim := None |}.
Proof.
  intros Hc Hl Hf.
  destruct (visualize_categorical "color" "bar" s) as [r s'] eqn:E.
  pose proof E as E'. apply categorical_run in E'.
  destruct r as [[] | e].
  - destruct E' as (c & Hc' & _ & ->). exists (saved s
      (target (output_directory (self s)) (Categorical "color" "bar"))
      (categorical_figure "color" "bar" (Pd.value_counts (values c)) (current s))
      (tail (figs s))).
    split; [done |]. rewrite Hc in Hc'. injection Hc' as <-.
    rewrite (color_counts l Hl). unfold saved, current. rewrite Hf. simpl.
    apply lookup_insert_eq.
  - exfalso. subst s'. revert E.
    destruct s as [me f fg]. simpl in *. subst fg.
    unfold visualize_categorical, series_plot. run. rewrite Hc. simpl.
    discriminate.
Qed.

Lemma color_bars_witness :
  columns people !! "color"%string = Some (StrCol colors) /\
  colors ≡ₚ repeat "red"%string 3 ++ repeat "blue"%string 5
            ++ repeat "green"%string 2 /\
  exists s',
    visualize_categorical "color" "bar" fresh = (Ok tt, s') /\
    files (fs s') !! "Output/bar_color.png"%string
    = Some {| artists :=
                [SeriesPlot "bar" [(VStr "blue", 5%nat); (VStr "red", 3%nat);
                                   (VStr "green", 2%nat)]];
              title := Some "Distribution of data across color"%string;
              xlabel := Some "color"%string;
              ylabel := Some "Frequency"%string;
              xlim := None;
              ylim := None |}.
Proof.
  assert (columns people !! "color"%string = Some (StrCol colors)) as Hc
    by (vm_compute; reflexivity).
  assert (colors ≡ₚ repeat "red"%string 3 ++ repeat "blue"%string 5
                    ++ repeat "green"%string 2) as Hp.
  { apply (bool_decide_unpack _). by vm_compute. }
  split; [exact Hc |]. split; [exact Hp |].
  exact (color_bars fresh colors Hc Hp eq_refl).
Defined.

(** ** Subsampling *)


Lemma round_nonneg q : 0 <= q -> (0 <= Py.round q)%Z.
Proof.
  intros H. unfold Py.round.
  assert (0 <= Qfloor q)%Z as Hz.
  { rewrite <- (Qfloor_Z 0). by apply Qfloor_resp_le. }
  destruct (Qcompare _ _); [destruct (Z.even _) | |]; lia.
Qed.




(** * Further properties of the methods *)

(** ** Errors raised before anything is drawn *)





(** X3: with [nbins = 0] [visualize_numeric] raises before anything is
    drawn: [OverflowError] when the values differ (the quotient is [inf]),
    [ValueError] when they are all equal (it is [nan]). *)
Theorem zero_bins_raises column cut s x mx mn :
  columns (df (self s)) !! column = Some (NumCol x) ->
  Np.max x = Some mx -> Np.min x = Some mn ->
  visualize_numeric column 0 cut s
  = (Raise (if Qeq_bool (mx - mn) 0 then ValueError else OverflowError), s).
Proof.
  destruct s as [me f fg]. simpl. intros Hc Hx Hn.
  unfold visualize_numeric, bin_width. run. rewrite Hc. simpl.
  rewrite Hx, Hn. simpl. by destruct (Qeq_bool (mx - mn) 0).
Qed.

Lemma zero_bins_raises_witness :
  columns (df (self fresh)) !! "age"%string = Some (NumCol age) /\
  Np.max age = Some 29 /\ Np.min age = Some 20 /\
  visualize_numeric "age" 0 0 fresh = (Raise OverflowError, fresh).
Proof.
  assert (columns (df (self fresh)) !! "age"%string = Some (NumCol age)) as H
    by (vm_compute; reflexivity).
  split; [exact H |]. split; [reflexivity |]. split; [reflexivity |].
  exact (zero_bins_raises "age" 0 fresh age 29 20 H eq_refl eq_refl).
Defined.

(** ** The bin width *)



(** ** What a call touches *)

(** X5: a call, whether it returns or raises, never changes the object's
    data set or output directory, nor the directories on disk, nor any file
    other than its own target. *)
Theorem call_frame call s r s' :
  run call s = (r, s') ->
  self s' = self s /\ dirs (fs s') = dirs (fs s) /\
  forall p, p <> target (output_directory (self s)) call ->
    files (fs s') !! p = files (fs s) !! p.
Proof.
  intros H.
  assert (s' = s \/ (self s' = self s /\ fs s' = fs s) \/
          exists g rest,
            s' = saved s (target (output_directory (self s)) call) g rest)
    as [-> | [[Hs Hf] | (g & rest & ->)]].
  { destruct r as [[] | e]; [right; right; by apply run_ok |].
    destruct call as [column nbins c | column kind | dep ind c | dep ind kind];
      simpl in H.
    - apply numeric_run in H as (? & _ & ? & _). auto.
    - apply categorical_run in H. auto.
    - apply xnum_run in H as (? & _ & ? & _). auto.
    - apply xcat_run in H. auto. }
  - done.
  - by rewrite Hs, Hf.
  - simpl. repeat split. intros p Hp. by rewrite lookup_insert_ne.
Qed.

Lemma call_frame_witness :
  let r := run (Categorical "color" "bar") fresh in
  run (Categorical "color" "bar") fresh = (fst r, snd r) /\
  self (snd r) = self fresh /\ dirs (fs (snd r)) = dirs (fs fresh) /\
  forall p, p <> "Output/bar_color.png"%string ->
    files (fs (snd r)) !! p = files (fs fresh) !! p.
Proof.
  intros r.
  assert (run (Categorical "color" "bar") fresh = (fst r, snd r)) as H
    by (unfold r; by destruct (run _ _)).
  split; [exact H |].
  exact (call_frame (Categorical "color" "bar") fresh (fst r) (snd r) H).
Defined.

Lemma run_ok_rest call s s' :
  run call s = (Ok tt, s') ->
  exists g, s' = saved s (target (output_directory (self s)) call) g
                   (rest_figs call (figs s)) /\
            title g = Some (title_of call) /\
            xlabel g = Some (xlabel_of call) /\
            ylabel g = Some (ylabel_of call).
Proof.
  destruct call as [column nbins c | column kind | dep ind c | dep ind kind];
    simpl; intros H.
  - apply numeric_run in H as (_ & _ & x & w & lim & _ & _ & _ & ->). eauto.
  - apply categorical_run in H as (c & _ & _ & ->). eauto.
  - apply xnum_run in H as (_ & _ & x & y & xl & yl & _ & _ & _ & _ & ->). eauto.
  - apply xcat_run in H as (kc & v & _ & _ & _ & ->). eauto.
Qed.

(** X6: a successful call leaves no figure of its own open: the three
    methods that draw through pyplot close the current figure,
    [visualize_ynum_to_xcat] the new one it drew on; started with no figure
    open, every method ends with none. *)
Theorem success_closes_figure call s s' :
  run call s = (Ok tt, s') ->
  figs s' = rest_figs call (figs s) /\ (figs s = [] -> figs s' = []).
Proof.
  intros H. apply run_ok_rest in H as (g & -> & _). simpl.
  split; [done |]. intros ->. by destruct call.
Qed.

Lemma success_closes_figure_witness :
  let s' := snd (run (YnumToXnum "score" "age" 0.1) fresh) in
  run (YnumToXnum "score" "age" 0.1) fresh = (Ok tt, s') /\
  figs s' = [] /\ (figs fresh = [] -> figs s' = []).
Proof.
  intros s'.
  assert (run (YnumToXnum "score" "age" 0.1) fresh = (Ok tt, s')) as H
    by (vm_compute; reflexivity).
  split; [exact H |]. exact (success_closes_figure _ fresh s' H).
Defined.

(** X7: the picture a successful call saves carries the title and the axis
    labels of that call, whatever was on the figure before: "Distribution
    of data across {column}" with the column and "Frequency", or
    "Relationship between {dependent} and {independent}" with the
    independent and the dependent variable. *)
Theorem saved_labels call s s' :
  run call s = (Ok tt, s') ->
  exists g,
    files (fs s') !! target (output_directory (self s)) call = Some g /\
    title g = Some (title_of call) /\
    xlabel g = Some (xlabel_of call) /\
    ylabel g = Some (ylabel_of call).
Proof.
  intros H. apply run_ok_rest in H as (g & -> & Ht & Hx & Hy).
  exists g. simpl. by rewrite lookup_insert_eq.
Qed.

Lemma saved_labels_witness :
  let s' := snd (run (YnumToXcat "score" "color" "box") fresh) in
  run (YnumToXcat "score" "color" "box") fresh = (Ok tt, s') /\
  exists g,
    files (fs s') !! "Output/box_score_color.png"%string = Some g /\
    title g = Some "Relationship between score and color"%string /\
    xlabel g = Some "color"%string /\
    ylabel g = Some "score"%string.
Proof.
  intros s'.
  assert (run (YnumToXcat "score" "color" "box") fresh = (Ok tt, s')) as H
    by (vm_compute; reflexivity).
  split; [exact H |]. exact (saved_labels _ fresh s' H).
Defined.

(** ** Calls one after another *)

Lemma limits_fun x c lim lim' : limits x c lim -> limits x c lim' -> lim = lim'.
Proof.
  unfold limits. destruct (Qle_bool c 0); [congruence |].
  intros (l & r & Hl & Hr & ->) (l' & r' & Hl' & Hr' & ->). congruence.
Qed.

Lemma col_limits_fun x c lim lim' :
  col_limits x c lim -> col_limits x c lim' -> lim = lim'.
Proof.
  unfold col_limits. destruct (Qle_bool c 0) eqn:E; [congruence |].
  intros (v & -> & Hl) (v' & [= <-] & Hl'). by eapply limits_fun.
Qed.

(** The picture a successful call saves depends on the object and on the
    figure it draws on only. *)
Lemma same_picture call s t s' t' :
  self s = self t -> current s = current t ->
  run call s = (Ok tt, s') -> run call t = (Ok tt, t') ->
  exists g,
    s' = saved s (target (output_directory (self s)) call) g
           (rest_figs call (figs s)) /\
    t' = saved t (target (output_directory (self t)) call) g
           (rest_figs call (figs t)).
Proof.
  intros Hs Hc.
  destruct call as [column nbins c | column kind | dep ind c | dep ind kind];
    simpl; intros H1 H2.
  - apply numeric_run in H1 as (_ & _ & x & w & lim & Hx & Hw & Hl & ->).
    apply numeric_run in H2 as (_ & _ & x' & w' & lim' & Hx' & Hw' & Hl' & ->).
    rewrite <- Hs in *. rewrite <- Hc.
    assert (x' = x) as -> by congruence. assert (w' = w) as -> by congruence.
    rewrite (limits_fun _ _ _ _ Hl' Hl). eauto.
  - apply categorical_run in H1 as (c & Hx & _ & ->).
    apply categorical_run in H2 as (c' & Hx' & _ & ->).
    rewrite <- Hs in *. rewrite <- Hc.
    assert (c' = c) as -> by congruence. eauto.
  - apply xnum_run in H1 as (_ & _ & x & y & xl & yl & Hx & Hy & Hxl & Hyl & ->).
    apply xnum_run in H2
      as (_ & _ & x' & y' & xl' & yl' & Hx' & Hy' & Hxl' & Hyl' & ->).
    rewrite <- Hs in *. rewrite <- Hc.
    assert (x' = x) as -> by congruence. assert (y' = y) as -> by congruence.
    rewrite (col_limits_fun _ _ _ _ Hxl' Hxl), (col_limits_fun _ _ _ _ Hyl' Hyl).
    eauto.
  - apply xcat_run in H1 as (kc & v & Hk & Hv & _ & ->).
    apply xcat_run in H2 as (kc' & v' & Hk' & Hv' & _ & ->).
    rewrite <- Hs in *.
    assert (kc' = kc) as -> by congruence. assert (v' = v) as -> by congruence.
    eauto.
Qed.

(** X8: calling a method again with the same arguments changes nothing:
    when both calls succeed and no figure was open at the start, the state
    after the second call is the state after the first, the file holding
    the same picture. *)
Theorem repeated_call_idempotent call s s1 s2 :
  figs s = [] ->
  run call s = (Ok tt, s1) -> run call s1 = (Ok tt, s2) -> s2 = s1.
Proof.
  intros Hf H1 H2.
  destruct (run_ok_rest _ _ _ H1) as (g0 & E1 & _).
  assert (self s = self s1) as Hs by (by rewrite E1).
  assert (current s = current s1) as Hc.
  { rewrite E1. unfold current. simpl. rewrite Hf. by destruct call. }
  destruct (same_picture call s s1 s1 s2 Hs Hc H1 H2) as (g & E & ->).
  assert (fs s1 = {| dirs := dirs (fs s);
                     files := <[target (output_directory (self s)) call := g]>
                                (files (fs s)) |} /\ figs s1 = [])
    as [Hfs Hfg] by (rewrite E; simpl; rewrite Hf; by destruct call).
  clear E E1 H1 H2 Hc. destruct s1 as [me1 f1 fg1]. simpl in *. subst.
  unfold saved. simpl. rewrite insert_insert_eq. by destruct call.
Qed.

Lemma repeated_call_idempotent_witness :
  let call := Numeric "age" 5 0.1 in
  let s1 := snd (run call fresh) in
  let s2 := snd (run call s1) in
  figs fresh = [] /\ run call fresh = (Ok tt, s1) /\
  run call s1 = (Ok tt, s2) /\ s2 = s1.
Proof.
  intros call s1 s2.
  assert (run call fresh = (Ok tt, s1)) as H1 by (vm_compute; reflexivity).
  assert (run call s1 = (Ok tt, s2)) as H2 by (vm_compute; reflexivity).
  split; [reflexivity |]. split; [exact H1 |]. split; [exact H2 |].
  exact (repeated_call_idempotent call fresh s1 s2 eq_refl H1 H2).
Defined.

(** X9: two calls that write different files do not disturb each other:
    started with no figure open, making them in either order (all four runs
    succeeding) ends in the same state. *)
Theorem calls_commute c1 c2 s s1 s2 s12 s21 :
  figs s = [] ->
  target (output_directory (self s)) c1 <> target (output_directory (self s)) c2 ->
  run c1 s = (Ok tt, s1) -> run c2 s1 = (Ok tt, s12) ->
  run c2 s = (Ok tt, s2) -> run c1 s2 = (Ok tt, s21) ->
  s12 = s21.
Proof.
  intros Hf Hne H1 H12 H2 H21.
  destruct (run_ok_rest _ _ _ H1) as (g1 & E1 & _).
  destruct (run_ok_rest _ _ _ H2) as (g2 & E2 & _).
  assert (figs s1 = [] /\ figs s2 = []) as [Hf1 Hf2].
  { rewrite E1, E2. simpl. rewrite Hf. by destruct c1, c2. }
  assert (self s = self s1 /\ self s = self s2) as [Hs1 Hs2]
    by (by rewrite E1, E2).
  assert (current s = current s1 /\ current s = current s2) as [Hc1 Hc2]
    by (unfold current; by rewrite Hf, Hf1, Hf2).
  destruct (same_picture c2 s s1 s2 s12 Hs1 Hc1 H2 H12) as (g & Ea & ->).
  destruct (same_picture c1 s s2 s1 s21 Hs2 Hc2 H1 H21) as (g' & Eb & ->).
  assert (fs s1 = {| dirs := dirs (fs s);
                     files := <[target (output_directory (self s)) c1 := g']>
                                (files (fs s)) |}) as Hfs1 by (by rewrite Eb).
  assert (fs s2 = {| dirs := dirs (fs s);
                     files := <[target (output_directory (self s)) c2 := g]>
                                (files (fs s)) |}) as Hfs2 by (by rewrite Ea).
  clear Ea Eb E1 E2 H1 H2 H12 H21 Hc1 Hc2.
  destruct s1 as [me1 f1 fg1], s2 as [me2 f2 fg2]. simpl in *. subst.
  unfold saved. simpl. f_equal; [| by destruct c1, c2].
  f_equal. by apply insert_insert_ne.
Qed.

Lemma calls_commute_witness :
  let c1 := Numeric "age" 5 0 in
  let c2 := Categorical "color" "bar" in
  let s1 := snd (run c1 fresh) in
  let s2 := snd (run c2 fresh) in
  figs fresh = [] /\
  "Output/age.png"%string <> "Output/bar_color.png"%string /\
  run c1 fresh = (Ok tt, s1) /\ run c2 s1 = (Ok tt, snd (run c2 s1)) /\
  run c2 fresh = (Ok tt, s2) /\ run c1 s2 = (Ok tt, snd (run c1 s2)) /\
  snd (run c2 s1) = snd (run c1 s2).
Proof.
  intros c1 c2 s1 s2.
  assert ("Output/age.png"%string <> "Output/bar_color.png"%string) as Hne
    by discriminate.
  assert (run c1 fresh = (Ok tt, s1)) as H1 by (vm_compute; reflexivity).
  assert (run c2 s1 = (Ok tt, snd (run c2 s1))) as H12
    by (vm_compute; reflexivity).
  assert (run c2 fresh = (Ok tt, s2)) as H2 by (vm_compute; reflexivity).
  assert (run c1 s2 = (Ok tt, snd (run c1 s2))) as H21
    by (vm_compute; reflexivity).
  repeat (split; [assumption || reflexivity |]).
  exact (calls_commute c1 c2 fresh s1 s2 _ _ eq_refl Hne H1 H12 H2 H21).
Defined.

(** ** Bin edges and the data *)

Lemma range_increasing start step (n i : nat) :
  (0 < step)%Z ->
  Plt.decreases (List.map (fun i => (start + Z.of_nat i * step)%Z) (List.seq i n))
  = false.
Proof.
  intros Hs. revert i. induction n as [| n IH]; intros i; [done |].
  simpl. destruct n as [| n]; [done |].
  specialize (IH (S i)). simpl in *. rewrite IH, orb_false_r.
  apply Z.ltb_ge. nia.
Qed.

Lemma bins_increasing x w : (0 < w)%Z -> Plt.decreases (bins x w) = false.
Proof.
  intros Hw. unfold bins. destruct (Np.max x), (Np.min x); try done.
  by apply range_increasing.
Qed.


(** X10: on a column of integers every value lies inside the bins: for a
    positive bin width the first edge is below and the last edge at or above
    every value of the column. *)
Theorem integer_column_covered x nbins w :
  bin_width x nbins = Ok w -> (0 < w)%Z -> Forall integral x ->
  exists first last_,
    head (bins x w) = Some first /\ last (bins x w) = Some last_ /\
    forall v, In v x -> inject_Z first < v /\ v <= inject_Z last_.
Proof.
  intros Hw Hpos Hint.
  assert (exists mx mn, Np.max x = Some mx /\ Np.min x = Some mn)
    as (mx & mn & Hx & Hn).
  { unfold bin_width in Hw. destruct (Np.max x), (Np.min x); try done. eauto. }
  destruct (bins_span x nbins w mn mx Hw Hpos Hn Hx)
    as [(a & b & Ha & Hb & _ & Hlo & _ & _ & Hhi & _) _].
  exists a, b. split; [done |]. split; [done |].
  destruct (max_spec _ _ Hx) as [Hin Hmax]. destruct (min_spec _ _ Hn) as [_ Hmin].
  assert (integral mx) as [z Hz].
  { rewrite Forall_forall in Hint. apply Hint. by apply list_elem_of_In. }
  specialize (Hhi z Hz). intros v Hv.
  specialize (Hmax v Hv). specialize (Hmin v Hv). split; lra.
Qed.

Lemma integer_column_covered_witness :
  bin_width age 5 = Ok 1%Z /\ (0 < 1)%Z /\ Forall integral age /\
  exists first last_,
    head (bins age 1) = Some first /\ last (bins age 1) = Some last_ /\
    forall v, In v age -> inject_Z first < v /\ v <= inject_Z last_.
Proof.
  assert (Forall integral age) as Hint.
  { unfold age. repeat constructor;
      match goal with |- integral ?q => exists (Qnum q); reflexivity end. }
  split; [reflexivity |]. split; [lia |]. split; [exact Hint |].
  exact (integer_column_covered age 5 1 eq_refl ltac:(lia) Hint).
Defined.



(** ** The cutoff *)

Lemma insert_sorted_perm a l : Np.insert_sorted a l ≡ₚ a :: l.
Proof.
  induction l as [| b t IH]; simpl; [done |].
  destruct (Qle_bool a b); [done |]. rewrite IH. apply perm_swap.
Qed.

Lemma sort_perm x : Np.sort x ≡ₚ x.
Proof.
  induction x as [| a t IH]; [done |].
  unfold Np.sort in *. simpl. by rewrite insert_sorted_perm, IH.
Qed.

Lemma insert_sorted_sorted a l :
  StronglySorted Qle l -> StronglySorted Qle (Np.insert_sorted a l).
Proof.
  induction 1 as [| b t Hs IH Hb]; simpl.
  - repeat constructor.
  - destruct (Qle_bool a b) eqn:E.
    + apply Qle_bool_iff in E. constructor; [by constructor |].
      constructor; [done |].
      eapply Forall_impl; [exact Hb |]. intros v Hv. simpl in Hv.
      by apply Qle_trans with b.
    + assert (b <= a) as Hba.
      { destruct (Qlt_le_dec b a) as [L | L]; [by apply Qlt_le_weak |].
        apply Qle_bool_iff in L. congruence. }
      constructor; [exact IH |].
      rewrite insert_sorted_perm. by constructor.
Qed.

Lemma sort_sorted x : StronglySorted Qle (Np.sort x).
Proof.
  induction x as [| a t IH]; [constructor |].
  unfold Np.sort in *. simpl. by apply insert_sorted_sorted.
Qed.

Lemma sorted_last_max l d :
  StronglySorted Qle l ->
  forall v, In v l -> v <= nth (length l - 1) l d.
Proof.
  induction 1 as [| a t Hs IH Ha]; [done |].
  intros v Hv. destruct t as [| b t'].
  - destruct Hv as [<- | []]. apply Qle_refl.
  - replace (length (a :: b :: t') - 1)%nat with (S (length (b :: t') - 1))
      by (simpl; lia).
    change (v <= nth (length (b :: t') - 1) (b :: t') d).
    destruct Hv as [<- | Hv]; [| by apply IH].
    rewrite Forall_forall in Ha. apply Ha. apply list_elem_of_In.
    apply nth_In. simpl. lia.
Qed.

(** The 100th percentile is the largest value. *)
Lemma percentile_top x q :
  x <> [] -> q == 100 ->
  exists p, Np.percentile x q = Some p /\ forall v, In v x -> v <= p.
Proof.
  intros Hx Hq. unfold Np.percentile.
  assert (Qle_bool 0 q && Qle_bool q 100 = true) as ->.
  { apply andb_true_intro. split; apply Qle_bool_iff; lra. }
  eexists. split; [reflexivity |]. intros v Hv.
  assert (0 < length x)%nat as Hn by (destruct x; [done | simpl; lia]).
  set (n := length x) in *.
  assert (q / 100 * inject_Z (Z.of_nat n - 1) == inject_Z (Z.of_nat n - 1))
    as Eidx by (rewrite Hq; field).
  set (idx := q / 100 * inject_Z (Z.of_nat n - 1)) in *.
  assert (Qfloor idx = (Z.of_nat n - 1)%Z) as Ef
    by (rewrite Eidx; apply Qfloor_Z).
  rewrite Ef.
  assert (length (Np.sort x) = n) as Hlen
    by (unfold n; apply Permutation_length, sort_perm).
  replace (Z.to_nat (Z.of_nat n - 1)) with (length (Np.sort x) - 1)%nat by lia.
  replace (S (length (Np.sort x) - 1)) with (length (Np.sort x)) by lia.
  rewrite (nth_overflow (Np.sort x) (n := length (Np.sort x)))
    by apply Nat.le_refl.
  set (a := nth (length (Np.sort x) - 1) (Np.sort x) 0).
  assert (v <= a) as Hva.
  { apply sorted_last_max; [apply sort_sorted |].
    apply list_elem_of_In. rewrite sort_perm. by apply list_elem_of_In. }
  lra.
Qed.

Lemma filter_none (f : Q -> bool) x :
  (forall v, In v x -> f v = false) -> List.filter f x = [].
Proof.
  induction x as [| a t IH]; [done |]. intros H. simpl.
  rewrite (H a) by (by left). apply IH. intros v Hv. apply H. by right.
Qed.

(** X12: an [outlier_cutoff] of 1 or more always makes [visualize_numeric]
    raise [ValueError] (at 1 no value exceeds the 100th percentile, so the
    lower limit is [nan]; above 1 the percentile is out of range); no file
    is written, and the histogram, already drawn, stays on the open
    figure. *)
Theorem full_cutoff_raises column nbins c s x w :
  columns (df (self s)) !! column = Some (NumCol x) ->
  bin_width x nbins = Ok w -> (0 < w)%Z -> 1 <= c ->
  visualize_numeric column nbins c s
  = (Raise ValueError,
     {| self := self s; fs := fs s;
        figs := Plt.add_artist (Hist x (bins x w)) (current s)
                :: tail (figs s) |}).
Proof.
  intros Hc Hw Hpos Hcut.
  pose proof (bins_increasing x w Hpos) as Hd.
  assert (x <> []) as Hx.
  { intros ->. unfold bin_width in Hw. simpl in Hw. discriminate. }
  assert (Qle_bool c 0 = false) as Hb by (apply positive_cutoff; lra).
  assert (left x c = Raise ValueError \/ left x c = Ok None) as Hleft.
  { unfold left. destruct (Qlt_le_dec 1 c) as [Hgt | Hle].
    - left. unfold Np.percentile.
      assert (Qle_bool (c * 100) 100 = false) as ->.
      { destruct (Qle_bool (c * 100) 100) eqn:E; [| done].
        apply Qle_bool_iff in E. lra. }
      by rewrite andb_false_r.
    - right. destruct (percentile_top x (c * 100) Hx) as (p & -> & Hp); [lra |].
      f_equal. rewrite filter_none; [done |].
      intros v Hv. apply negb_false_iff, Qle_bool_iff. by apply Hp. }
  assert (forall l, left x c = Ok l ->
                    exists r, right x c = Ok r) as Hright.
  { intros l Hl. unfold right, left in *.
    destruct (Qlt_le_dec 1 c) as [Hgt | Hle].
    - exfalso. unfold Np.percentile in Hl.
      assert (Qle_bool (c * 100) 100 = false) as E.
      { destruct (Qle_bool (c * 100) 100) eqn:E; [| done].
        apply Qle_bool_iff in E. lra. }
      rewrite E, andb_false_r in Hl. discriminate.
    - unfold Np.percentile.
      assert (Qle_bool 0 ((1 - c) * 100) && Qle_bool ((1 - c) * 100) 100 = true)
        as ->.
      { apply andb_true_intro. split; apply Qle_bool_iff; lra. }
      eauto. }
  destruct s as [me f fg]. unfold visualize_numeric. run.
  rewrite Hc. simpl. rewrite Hw. simpl. rewrite Hd, Hb. simpl.
  destruct Hleft as [-> | Hl].
  - by destruct fg.
  - destruct (Hright _ Hl) as (r & Hr). rewrite Hl, Hr. by destruct fg.
Qed.

Lemma full_cutoff_raises_witness :
  columns (df (self fresh)) !! "age"%string = Some (NumCol age) /\
  bin_width age 5 = Ok 1%Z /\ (0 < 1)%Z /\ 1 <= 1 /\
  visualize_numeric "age" 5 1 fresh
  = (Raise ValueError,
     {| self := self fresh; fs := fs fresh;
        figs := [Plt.add_artist (Hist age (bins age 1)) empty_figure] |}).
Proof.
  assert (columns (df (self fresh)) !! "age"%string = Some (NumCol age)) as Hc
    by (vm_compute; reflexivity).
  assert (1 <= 1) as Hcut by apply Qle_refl.
  split; [exact Hc |]. split; [reflexivity |]. split; [lia |].
  split; [exact Hcut |].
  exact (full_cutoff_raises "age" 5 1 fresh age 1 Hc eq_refl ltac:(lia) Hcut).
Defined.



(** X14: the cutoff changes nothing but the x-limits: two successful runs
    of [visualize_numeric] that differ in the cutoff only save pictures
    with the same histogram (data and bin edges), title, labels and
    y-limits, and leave the same figures open. *)
Theorem cutoff_changes_limits_only column nbins c1 c2 s s1 s2 :
  visualize_numeric column nbins c1 s = (Ok tt, s1) ->
  visualize_numeric column nbins c2 s = (Ok tt, s2) ->
  exists g1 g2,
    files (fs s1) !! (output_directory (self s) +:+ "/" +:+ column +:+ ".png")
      = Some g1 /\
    files (fs s2) !! (output_directory (self s) +:+ "/" +:+ column +:+ ".png")
      = Some g2 /\
    artists g1 = artists g2 /\ title g1 = title g2 /\
    xlabel g1 = xlabel g2 /\ ylabel g1 = ylabel g2 /\ ylim g1 = ylim g2 /\
    figs s1 = figs s2.
Proof.
  intros H1 H2.
  apply numeric_run in H1 as (_ & _ & x & w & lim & Hx & Hw & _ & ->).
  apply numeric_run in H2 as (_ & _ & x' & w' & lim' & Hx' & Hw' & _ & ->).
  assert (x' = x) as -> by congruence. assert (w' = w) as -> by congruence.
  do 2 eexists. unfold saved. simpl.
  split; [apply lookup_insert_eq |]. split; [apply lookup_insert_eq |]. done.
Qed.

Lemma cutoff_changes_limits_only_witness :
  let s1 := snd (visualize_numeric "age" 5 0 fresh) in
  let s2 := snd (visualize_numeric "age" 5 0.1 fresh) in
  visualize_numeric "age" 5 0 fresh = (Ok tt, s1) /\
  visualize_numeric "age" 5 0.1 fresh = (Ok tt, s2) /\
  exists g1 g2,
    files (fs s1) !! "Output/age.png"%string = Some g1 /\
    files (fs s2) !! "Output/age.png"%string = Some g2 /\
    artists g1 = artists g2 /\ title g1 = title g2 /\
    xlabel g1 = xlabel g2 /\ ylabel g1 = ylabel g2 /\ ylim g1 = ylim g2 /\
    figs s1 = figs s2.
Proof.
  intros s1 s2.
  assert (visualize_numeric "age" 5 0 fresh = (Ok tt, s1)) as H1
    by (vm_compute; reflexivity).
  assert (visualize_numeric "age" 5 0.1 fresh = (Ok tt, s2)) as H2
    by (vm_compute; reflexivity).
  split; [exact H1 |]. split; [exact H2 |].
  exact (cutoff_changes_limits_only "age" 5 0 0.1 fresh s1 s2 H1 H2).
Defined.

(** ** A negative bin count *)

Lemma int_ceiling q : q <= 0 -> Py.int q = Qceiling q.
Proof.
  intros H. unfold Qceiling. rewrite <- (int_floor (- q)) by lra.
  destruct q as [n d]. unfold Py.int, Qopp. simpl.
  rewrite Z.quot_opp_l by lia. lia.
Qed.

Lemma int_mono q q' : q <= q' -> (Py.int q <= Py.int q')%Z.
Proof.
  intros H.
  destruct (Qlt_le_dec q 0) as [Hq | Hq], (Qlt_le_dec q' 0) as [Hq' | Hq'].
  - rewrite !int_ceiling by lra. by apply Qceiling_resp_le.
  - rewrite int_ceiling by lra. rewrite int_floor by done.
    assert (Qceiling q <= 0)%Z
      by (rewrite <- (Qceiling_Z 0); apply Qceiling_resp_le;
          exact (Qlt_le_weak _ _ Hq)).
    assert (0 <= Qfloor q')%Z
      by (rewrite <- (Qfloor_Z 0); by apply Qfloor_resp_le).
    lia.
  - lra.
  - rewrite !int_floor by lra. by apply Qfloor_resp_le.
Qed.

(** X15: a negative bin width gives no bin edges at all: when the bin
    count is negative and the range at least as large as its magnitude, the
    width is negative and the range of edges, counting down from below the
    minimum, is empty. *)
Theorem negative_width_no_edges x nbins w :
  bin_width x nbins = Ok w -> (w < 0)%Z -> bins x w = [].
Proof.
  intros Hw Hneg. unfold bin_width in Hw. unfold bins.
  destruct (Np.max x) as [mx |] eqn:Hx; [| discriminate].
  destruct (Np.min x) as [mn |] eqn:Hn; [| discriminate].
  destruct (Z.eqb_spec nbins 0) as [-> | HN0];
    [by destruct (Qeq_bool _ _) |].
  set (q := (mx - mn) / inject_Z nbins) in *.
  assert (w = Py.int q) as Ew.
  { destruct (Z.eqb_spec (Py.int q) 0); [| congruence].
    assert (w = 1%Z) by congruence. lia. }
  pose proof (min_le_max _ _ _ Hn Hx) as Hle.
  assert (nbins < 0)%Z as HN.
  { destruct (Z.lt_trichotomy nbins 0) as [? | [? | Hpos]]; [done | done |].
    exfalso.
    assert (0 <= q).
    { unfold q. apply Qle_shift_div_l; [| rewrite Qmult_0_l; lra].
      replace 0 with (inject_Z 0) by reflexivity. by rewrite <- Zlt_Qlt. }
    rewrite int_floor in Ew by done.
    assert (0 <= Qfloor q)%Z
      by (rewrite <- (Qfloor_Z 0); by apply Qfloor_resp_le).
    lia. }
  assert (inject_Z nbins <= -1) as HNq.
  { replace (-1) with (inject_Z (-1)) by reflexivity. rewrite <- Zle_Qle. lia. }
  assert (q * inject_Z nbins == mx - mn) as Eq by (unfold q; field; lra).
  remember (inject_Z nbins) as Nq eqn:ENq. clear ENq.
  assert (q <= 0) as Hq0 by nra.
  assert (- (mx - mn) <= q) as Hq by nra.
  rewrite int_ceiling in Ew by done.
  pose proof (Qle_ceiling q) as Hc. rewrite <- Ew in Hc.
  assert (Py.int (mn - 1) <= Py.int (mx + inject_Z w))%Z as Hss
    by (apply int_mono; lra).
  unfold Py.range, Py.range_len.
  destruct (Z.ltb_spec 0 w); [lia |]. destruct (Z.ltb_spec w 0); [| lia].
  replace (Z.to_nat _) with 0%nat; [done |].
  symmetry. apply Z2Nat.nonpos.
  assert ((Py.int (mn - 1) - Py.int (mx + inject_Z w) - w - 1) / - w < 1)%Z;
    [| lia].
  apply Z.div_lt_upper_bound; lia.
Qed.

Lemma negative_width_no_edges_witness :
  bin_width [0; 9] (-5) = Ok (-1)%Z /\ (-1 < 0)%Z /\ bins [0; 9] (-1) = [].
Proof.
  split; [reflexivity |]. split; [lia |].
  exact (negative_width_no_edges [0; 9] (-5) (-1) eq_refl ltac:(lia)).
Defined.

(** ** What the categorical charts show *)








(** ** What the grouped charts show *)







(** ** The constructor *)

(** X18: a successful construction stores the output directory it was
    given, makes sure that path exists, and touches nothing else: no file
    changes, no directory disappears, the open figures stay, and when the
    path existed already the file system is left exactly as it was. *)
Theorem init_directory (RandomState : Type)
    (choice : RandomState -> nat -> nat -> list nat)
    (d : DataFrame) (out : string) (p : Q) (rs : RandomState) (f : FS)
    (open_figs : list Figure) (st : State) :
  __init__ RandomState choice d out p rs f open_figs = Ok st ->
  output_directory (self st) = out /\
  path_exists (fs st) out = true /\
  files (fs st) = files f /\
  dirs f ⊆ dirs (fs st) /\
  figs st = open_figs /\
  (path_exists f out = true -> fs st = f).
Proof.
  unfold __init__.
  destruct (if negb (Qle_bool 100 p) then _ else _) as [d' | e];
    [| discriminate].
  destruct (path_exists f out) eqn:E.
  - intros [= <-]. simpl. by rewrite E.
  - unfold makedirs. destruct (decide (out = ""%string)); [discriminate |].
    intros [= <-]. simpl. repeat split; try done.
    + unfold path_exists. simpl. apply orb_true_intro. left.
      apply bool_decide_eq_true. apply elem_of_union_l.
      by apply elem_of_singleton.
    + apply union_subseteq_r.
Qed.

Lemma init_directory_witness :
  let st := {| self := {| df := people; output_directory := "Out" |};
               fs := {| dirs := {[ "Out"%string ]} ∪ dirs (fs fresh);
                        files := files (fs fresh) |};
               figs := [] |} in
  __init__ unit (fun _ _ k => seq 0 k) people "Out" 100 tt (fs fresh) [] = Ok st /\
  output_directory (self st) = "Out"%string /\
  path_exists (fs st) "Out" = true.
Proof.
  intros st.
  assert (__init__ unit (fun _ _ k => seq 0 k) people "Out" 100 tt (fs fresh) []
          = Ok st) as H by reflexivity.
  destruct (init_directory _ _ _ _ _ _ _ _ _ H) as (H1 & H2 & _).
  split; [exact H |]. split; [exact H1 | exact H2].
Defined.

(** X19: with an empty output directory name that does not exist the
    constructor raises [FileNotFoundError]: [os.makedirs] cannot create
    it. *)
Theorem init_empty_directory (RandomState : Type)
    (choice : RandomState -> nat -> nat -> list nat)
    (d : DataFrame) (p : Q) (rs : RandomState) (f : FS)
    (open_figs : list Figure) :
  0 <= p -> path_exists f "" = false ->
  __init__ RandomState choice d "" p rs f open_figs = Raise FileNotFoundError.
Proof.
  intros Hp He. unfold __init__. rewrite He.
  destruct (Qle_bool 100 p) eqn:E; simpl; [done |].
  assert (p < 100) as Hlt.
  { destruct (Qlt_le_dec p 100) as [? | L]; [done |].
    apply Qle_bool_iff in L. congruence. }
  unfold sample.
  assert (0 <= p / 100) as H0 by (apply Qle_shift_div_l; lra).
  assert (p / 100 <= 1) as H1 by (apply Qle_shift_div_r; lra).
  apply Qle_bool_iff in H0. apply Qle_bool_iff in H1.
  by rewrite H0, H1.
Qed.

Lemma init_empty_directory_witness :
  0 <= 50 /\ path_exists (fs fresh) "" = false /\
  __init__ unit (fun _ _ k => seq 0 k) people "" 50 tt (fs fresh) []
  = Raise FileNotFoundError.
Proof.
  assert (0 <= 50) as Hp by (by vm_compute).
  assert (path_exists (fs fresh) "" = false) as He by (vm_compute; reflexivity).
  split; [exact Hp |]. split; [exact He |].
  exact (init_empty_directory unit (fun _ _ k => seq 0 k) people 50 tt
           (fs fresh) [] Hp He).
Defined.

Lemma nodup_rows {A} (l : list A) (locs : list nat) :
  NoDup l -> NoDup locs -> NoDup (omap (fun i => l !! i) locs).
Proof.
  intros Hl. induction 1 as [| i locs Hi Hn IH]; csimpl; [constructor |].
  destruct (l !! i) as [x |] eqn:E; csimpl; [| exact IH].
  constructor; [| exact IH].
  intros Hx. apply list_elem_of_omap in Hx as (j & Hj & Ej).
  assert (i = j) by exact (NoDup_lookup l i j x Hl E Ej). by subst.
Qed.

(** X20: the held data set is drawn from the one given: a percentage of
    100 or more keeps the frame as it is; below 100 the held frame has the
    same column names, every row label it holds is a row label of the
    original, and no row is taken twice when the generator draws without
    repetition. *)
Theorem init_rows (RandomState : Type)
    (choice : RandomState -> nat -> nat -> list nat)
    (d : DataFrame) (out : string) (p : Q) (rs : RandomState) (f : FS)
    (open_figs : list Figure) (st : State) :
  __init__ RandomState choice d out p rs f open_figs = Ok st ->
  (100 <= p -> df (self st) = d) /\
  dom (columns (df (self st))) = dom (columns d) /\
  (forall i, In i (index (df (self st))) -> In i (index d)) /\
  ((forall rs n k, NoDup (choice rs n k)) -> NoDup (index d) ->
   NoDup (index (df (self st)))).
Proof.
  unfold __init__.
  destruct (Qle_bool 100 p) eqn:E; simpl.
  - destruct (if path_exists f out then _ else _); [| discriminate].
    intros [= <-]. simpl. repeat split; auto.
  - unfold sample.
    destruct (negb (Qle_bool 0 (p / 100))); [discriminate |].
    destruct (negb (Qle_bool (p / 100) 1)); [discriminate |].
    destruct (if path_exists f out then _ else _); [| discriminate].
    intros [= <-]. simpl. split; [| split; [| split]].
    + intros Hge. apply Qle_bool_iff in Hge. congruence.
    + apply dom_fmap_L.
    + intros i Hi. apply list_elem_of_In in Hi.
      apply list_elem_of_omap in Hi as (j & _ & Hj).
      apply list_elem_of_In. by eapply list_elem_of_lookup_2.
    + intros Hch Hnd. by apply nodup_rows.
Qed.

Lemma init_rows_witness :
  exists st,
    __init__ unit (fun _ _ k => seq 0 k) people "Out" 35 tt (fs fresh) [] = Ok st /\
    (100 <= 35 -> df (self st) = people) /\
    dom (columns (df (self st))) = dom (columns people) /\
    (forall i, In i (index (df (self st))) -> In i (index people)) /\
    ((forall (rs : unit) (n k : nat), NoDup (seq 0 k)) ->
     NoDup (index people) -> NoDup (index (df (self st)))).
Proof.
  destruct (__init__ unit (fun _ _ k => seq 0 k) people "Out" 35 tt (fs fresh) [])
    as [st | e] eqn:H; [| vm_compute in H; discriminate].
  exists st. split; [reflexivity |].
  exact (init_rows unit (fun _ _ k => seq 0 k) people "Out" 35 tt (fs fresh) []
           st H).
Defined.
